(** * libbattery: the sysfs battery selector and the Li-Ion fuel estimator

    A shallow embedding of [libbattery.c].  C [int] values are integers of
    [Z] with the 32-bit two's-complement wrap-around written out, text read
    from sysfs files is a [string] of bytes, and the file system under
    [/sys/class/power_supply] is a read-only oracle. *)

From Stdlib Require Import ZArith Lia Bool List Ascii String.
From Stdlib Require Import Permutation.
Import ListNotations.

Local Open Scope string_scope.
Local Open Scope Z_scope.

(** ** Machine integers *)

Module Int.

Definition min_int : Z := - 2 ^ 31.
Definition max_int : Z := 2 ^ 31 - 1.
Definition min_long : Z := - 2 ^ 63.
Definition max_long : Z := 2 ^ 63 - 1.

(** Reduction of an integer to the value an [int] holds. *)
Definition wrap (z : Z) : Z := (z + 2 ^ 31) mod 2 ^ 32 - 2 ^ 31.

Definition add (a b : Z) : Z := wrap (a + b).
Definition sub (a b : Z) : Z := wrap (a - b).
Definition mul (a b : Z) : Z := wrap (a * b).
(** C division truncates toward zero. *)
Definition div (a b : Z) : Z := wrap (Z.quot a b).

Definition in_range (z : Z) : Prop := min_int <= z <= max_int.

End Int.

(** ** The C library functions the source calls *)

Module LibC.

Definition LF : string := String (ascii_of_N 10) EmptyString.

Definition code (c : ascii) : Z := Z.of_N (N_of_ascii c).

(** The C string a buffer holds: its bytes up to the first NUL. *)
Fixpoint c_str (buf : string) : string :=
  match buf with
  | EmptyString => EmptyString
  | String c rest =>
      if (code c =? 0) then EmptyString else String c (c_str rest)
  end.

(** [strcmp] over buffers: the end of the buffer and a NUL byte both
    terminate; the result is the difference of the first bytes that
    differ, as unsigned chars. *)
Fixpoint strcmp (a b : string) : Z :=
  match a, b with
  | EmptyString, EmptyString => 0
  | EmptyString, String d _ => - code d
  | String c _, EmptyString => code c
  | String c a', String d b' =>
      if code c =? code d
      then (if code c =? 0 then 0 else strcmp a' b')
      else code c - code d
  end.

Definition isspace (c : ascii) : bool :=
  (code c =? 32) || ((9 <=? code c) && (code c <=? 13)).

Definition isdigit (c : ascii) : bool :=
  (48 <=? code c) && (code c <=? 57).

Fixpoint skip_space (s : string) : string :=
  match s with
  | EmptyString => EmptyString
  | String c rest => if isspace c then skip_space rest else s
  end.

(** The optional sign: whether it is a minus, and the text after it. *)
Definition take_sign (s : string) : bool * string :=
  match s with
  | String c rest =>
      if code c =? 45 then (true, rest)
      else if code c =? 43 then (false, rest)
      else (false, s)
  | EmptyString => (false, s)
  end.

(** The decimal digits at the head of [s], accumulated onto [acc]. *)
Fixpoint digits (s : string) (acc : Z) : Z :=
  match s with
  | EmptyString => acc
  | String c rest =>
      if isdigit c then digits rest (acc * 10 + (code c - 48)) else acc
  end.

(** [strtol(s, NULL, 10)]: white space, an optional sign, the longest run
    of digits; a value outside [long] is replaced by the nearest bound. *)
Definition strtol10 (s : string) : Z :=
  let '(neg, body) := take_sign (skip_space s) in
  let n := digits body 0 in
  let v := if neg then - n else n in
  Z.max Int.min_long (Z.min Int.max_long v).

(** [atoi(s)] is [(int) strtol(s, NULL, 10)]. *)
Definition atoi (s : string) : Z := Int.wrap (strtol10 s).

(** No integer can be read from [s]: after white space and an optional
    sign there is no digit.  This is when [strtol] performs no
    conversion. *)
Definition no_conversion (s : string) : bool :=
  match snd (take_sign (skip_space s)) with
  | EmptyString => true
  | String c _ => negb (isdigit c)
  end.

End LibC.

(** ** The voltage-based fuel estimator *)

Module Fuel.

(** Modelled from the spec: the macro [max] is not defined in the source
    file; it is the larger of its two arguments. *)
Definition max (a b : Z) : Z := Z.max a b.

(** Modelled from the spec: the macro [min] is not defined in the source
    file; it is the smaller of its two arguments. *)
Definition min (a b : Z) : Z := Z.min a b.

(** Modelled from the spec: [int_sqrt] is not defined in the source file;
    it is the integer square root. *)
Definition int_sqrt (u : Z) : Z := Z.sqrt u.

Definition fuel_level_LiIon (mV mA mOhm : Z) : Z :=
  (* internal battery voltage is higher than measured when discharging *)
  let mV := Int.add mV (Int.div (Int.mul mOhm mA) 1000) in
  (* apply first part of formula *)
  let u := Int.sub 3870000 (Int.mul 14523 (Int.sub 37835 (Int.mul 10 mV))) in
  if u <? 0 then
    (* use linear approx. below 3.756V *)
    max (Int.div (Int.mul (Int.sub mV 3300)
                          (Int.mul (Int.sub 3756 3300) 1966))
                 100000)
        0
  else
    (* apply second part of formula *)
    min (Int.div (Int.wrap (1966 + int_sqrt u)) 100) 100.

End Fuel.

(** ** The battery selector *)

Module PowerSupply.

Import LibC.

(** [enum battery_state]; its declaration is in [battery.h], the source
    file uses these five constants. *)
Inductive battery_state : Type :=
| POWERSTATE_UNKNOWN
| POWERSTATE_ON_BATTERY
| POWERSTATE_NO_BATTERY
| POWERSTATE_CHARGING
| POWERSTATE_CHARGED.

(** The file system below [/sys/class/power_supply]: what [opendir] and
    [readdir] list ([None] when [opendir] fails), and the bytes of the
    file [base/node/key] ([None] when [open] or [read] fails). *)
Record sysfs : Type := Sysfs {
  dir_entries : option (list string);
  file_content : string -> string -> option string
}.

(** The three cells the caller passes by pointer. *)
Record power_info : Type := PowerInfo {
  state : battery_state;
  seconds : Z;
  percent : Z
}.

(** [sizeof (str)] in the loop body. *)
Definition buflen : nat := 64.

(** What [read_power_file] leaves in [buf]: at most [buflen - 1] bytes of
    the file; [None] is the [false] return. *)
Definition read_power_file (fs : sysfs) (node key : string) (len : nat)
  : option string :=
  match file_content fs node key with
  | None => None
  | Some bytes => Some (substring 0 (len - 1) bytes)
  end.

Section Entry.

Variable fs : sysfs.
Variable name : string.

(** The [continue] tests at the head of the loop body: [true] when the
    entry is passed over. *)
Definition skipped : bool :=
  if (strcmp name "." =? 0) || (strcmp name ".." =? 0) then true
  else
    match read_power_file fs name "type" buflen with
    | None => true
    | Some str =>
        if negb (strcmp str ("Battery" ++ LF) =? 0) then true
        else
          match read_power_file fs name "scope" buflen with
          | Some str' => strcmp str' ("device" ++ LF) =? 0
          | None => false
          end
    end.

Definition entry_state : battery_state :=
  let present0 :=
    match read_power_file fs name "present" buflen with
    | Some str => strcmp str ("0" ++ LF) =? 0
    | None => false
    end in
  if present0 then POWERSTATE_NO_BATTERY
  else
    match read_power_file fs name "status" buflen with
    | None => POWERSTATE_UNKNOWN
    | Some str =>
        if strcmp str ("Charging" ++ LF) =? 0 then POWERSTATE_CHARGING
        else if strcmp str ("Discharging" ++ LF) =? 0
        then POWERSTATE_ON_BATTERY
        else if (strcmp str ("Full" ++ LF) =? 0)
                || (strcmp str ("Not charging" ++ LF) =? 0)
        then POWERSTATE_CHARGED
        else POWERSTATE_UNKNOWN
    end.

Definition entry_pct : Z :=
  match read_power_file fs name "capacity" buflen with
  | None => -1
  | Some str =>
      let pct := atoi str in
      if pct >? 100 then 100 else pct
  end.

Definition entry_secs : Z :=
  match read_power_file fs name "time_to_empty_now" buflen with
  | None => -1
  | Some str =>
      let secs := atoi str in
      if secs <=? 0 then -1 else secs
  end.

End Entry.

(** The value of [choose] after the comparison of a candidate with the
    running best held in the caller's cells. *)
Definition choose (secs pct : Z) (best : power_info) : bool :=
  if (secs <? 0) && (seconds best <? 0) then
    if (pct <? 0) && (percent best <? 0) then true
    else if pct >? percent best then true
    else false
  else if secs >? seconds best then true
  else false.

(** One turn of the [while] loop. *)
Definition loop_body (fs : sysfs) (best : power_info) (name : string)
  : power_info :=
  if skipped fs name then best
  else
    let st := entry_state fs name in
    let pct := entry_pct fs name in
    let secs := entry_secs fs name in
    if choose secs pct best
    then {| state := st; seconds := secs; percent := pct |}
    else best.

(** The same files under another directory listing. *)
Definition relist (fs : sysfs) (names : list string) : sysfs :=
  {| dir_entries := Some names; file_content := file_content fs |}.

(** The cells as set before the loop. *)
Definition no_battery : power_info :=
  {| state := POWERSTATE_NO_BATTERY; seconds := -1; percent := -1 |}.

Definition scan (fs : sysfs) (names : list string) : power_info :=
  fold_left (loop_body fs) names no_battery.

(** The function: its [bool] result and the contents of the caller's
    cells on return, given their contents [out] at the call. *)
Definition GetPowerInfo_Linux_sys_class_power_supply
  (fs : sysfs) (out : power_info) : bool * power_info :=
  match dir_entries fs with
  | None => (false, out)
  | Some names => (true, scan fs names)
  end.

End PowerSupply.

(** ** The vocabulary of the specification *)

Module Spec.

Import LibC PowerSupply.

(** The text of an attribute as the selector sees it: the C string in the
    buffer after a successful read, [None] for a missing or unreadable
    file. *)
Definition attr (fs : sysfs) (name key : string) : option string :=
  option_map c_str (read_power_file fs name key buflen).

(** A line of text as sysfs presents it: the word and a line feed. *)
Definition line (word : string) : string := word ++ LF.

Definition is_line (word : string) (a : option string) : bool :=
  match a with
  | Some s => String.eqb s (line word)
  | None => false
  end.

(** The self and parent entries of the directory. *)
Definition pseudo_entry (name : string) : Prop :=
  c_str name = "." \/ c_str name = "..".

(** An entry removed by the type filter or by the scope filter. *)
Definition filtered_out (fs : sysfs) (name : string) : Prop :=
  attr fs name "type" = None
  \/ attr fs name "type" <> Some (line "Battery")
  \/ attr fs name "scope" = Some (line "device").

(** A cell read as an optional value; the comparison in the source takes
    every negative number for an absent value. *)
Definition known (v : Z) : option Z := if v <? 0 then None else Some v.

(** Strict order on optional seconds, an absent value below every known
    one. *)
Definition seconds_lt (a b : option Z) : bool :=
  match a, b with
  | None, None => false
  | None, Some _ => true
  | Some _, None => false
  | Some x, Some y => x <? y
  end.

(** The precedence of section 4.2, step 8: is the candidate preferred to
    the running best? *)
Definition prefers (best_secs best_pct cand_secs cand_pct : option Z)
  : bool :=
  match best_secs, cand_secs with
  | None, None =>
      match best_pct, cand_pct with
      | None, _ => true
      | Some b, Some c => b <? c
      | Some _, None => false
      end
  | _, _ => seconds_lt best_secs cand_secs
  end.

(** The percent rule alone, on the cells. *)
Definition percent_rule (pct best_pct : Z) : bool :=
  ((pct <? 0) && (best_pct <? 0)) || (best_pct <? pct).

(** The state of an entry, section 4.2, step 5. *)
Definition state_of (present status : option string) : battery_state :=
  if is_line "0" present then POWERSTATE_NO_BATTERY
  else if is_line "Charging" status then POWERSTATE_CHARGING
  else if is_line "Discharging" status then POWERSTATE_ON_BATTERY
  else if is_line "Full" status then POWERSTATE_CHARGED
  else if is_line "Not charging" status then POWERSTATE_CHARGED
  else POWERSTATE_UNKNOWN.

(** What holds of the cells at every turn of the loop. *)
Definition well_shaped (p : power_info) : Prop :=
  percent p <= 100 /\ (seconds p = -1 \/ 0 < seconds p).

End Spec.

(** ** Concrete attribute stores *)

Module Stores.

Import LibC PowerSupply Spec.

Fixpoint assoc {A : Type} (k : string) (l : list (string * A)) : option A :=
  match l with
  | [] => None
  | (k', v) :: rest => if String.eqb k k' then Some v else assoc k rest
  end.

(** A directory given by its entries in listing order, each with its
    attribute files. *)
Definition sysfs_of (entries : list (string * list (string * string)))
  : sysfs :=
  {| dir_entries := Some (map fst entries);
     file_content := fun node key =>
       match assoc node entries with
       | Some files => assoc key files
       | None => None
       end |}.

(** A machine without [/sys/class/power_supply]. *)
Definition no_sysfs : sysfs :=
  {| dir_entries := None; file_content := fun _ _ => None |}.

Definition battery (files : list (string * string))
  : list (string * string) :=
  ("type", line "Battery") :: files.

(** Seconds known with a low percent, against seconds absent with a high
    percent. *)
Definition bat_A : list (string * string) :=
  battery [("status", line "Discharging");
           ("capacity", line "10");
           ("time_to_empty_now", line "100")].
Definition bat_B : list (string * string) :=
  battery [("status", line "Charging"); ("capacity", line "90")].

Definition fs_AB : sysfs := sysfs_of [("BAT0", bat_A); ("BAT1", bat_B)].
Definition fs_BA : sysfs := sysfs_of [("BAT0", bat_B); ("BAT1", bat_A)].

Definition fs_150 : sysfs :=
  sysfs_of [("BAT0", battery [("status", line "Full");
                              ("capacity", line "150")])].

Definition fs_negative : sysfs :=
  sysfs_of [("BAT0", battery [("status", line "Discharging");
                              ("capacity", line "-5")])].

Definition fs_garbled : sysfs :=
  sysfs_of [("BAT0", battery [("status", line "Discharging");
                              ("capacity", line "abc");
                              ("time_to_empty_now", line "abc")])].


Definition fs_controller : sysfs :=
  sysfs_of [("hid", battery [("scope", line "device");
                             ("status", line "Discharging");
                             ("capacity", line "80")]);
            ("BAT0", battery [("status", line "Discharging");
                              ("capacity", line "50")])].

Definition fs_removed : sysfs :=
  sysfs_of [("BAT0", battery [("present", line "0");
                              ("status", line "Discharging");
                              ("capacity", line "50");
                              ("time_to_empty_now", line "3600")])].

Definition bat_zero_time : list (string * string) :=
  battery [("status", line "Discharging");
           ("capacity", line "70");
           ("time_to_empty_now", line "0")].
Definition bat_no_time : list (string * string) :=
  battery [("status", line "Charging"); ("capacity", line "40")].

Definition fs_zero_time : sysfs :=
  sysfs_of [("BAT0", bat_zero_time); ("BAT1", bat_no_time)].
Definition fs_zero_time_rev : sysfs :=
  sysfs_of [("BAT1", bat_no_time); ("BAT0", bat_zero_time)].

(** Cell contents a caller may hold before the call. *)
Definition stale : power_info :=
  {| state := POWERSTATE_CHARGED; seconds := 777; percent := 42 |}.

End Stores.

(** ** Vocabulary for the selection as a whole *)

Module Select.

Import LibC PowerSupply Spec.

(** What an entry offers to the comparison: the three values computed in
    its turn of the loop. *)
Definition candidate (fs : sysfs) (name : string) : power_info :=
  {| state := entry_state fs name;
     seconds := entry_secs fs name;
     percent := entry_pct fs name |}.

(** The entries of a listing that get past the [continue] tests, in
    listing order. *)
Definition kept (fs : sysfs) (names : list string) : list string :=
  filter (fun n => negb (skipped fs n)) names.

(** The largest seconds among the kept entries, -1 when there is none. *)
Definition most_seconds (fs : sysfs) (names : list string) : Z :=
  fold_right Z.max (-1) (map (entry_secs fs) (kept fs names)).

End Select.

(** ** The parts of the fuel estimator *)

Module FuelParts.

(** The value [mV] holds after the first statement of
    [fuel_level_LiIon]: the measured voltage plus the drop over the
    series resistance. *)
Definition corrected_mV (mV mA mOhm : Z) : Z :=
  Int.add mV (Int.div (Int.mul mOhm mA) 1000).

(** The value of [u] for a corrected voltage [v]. *)
Definition curve_u (v : Z) : Z :=
  Int.sub 3870000 (Int.mul 14523 (Int.sub 37835 (Int.mul 10 v))).

End FuelParts.

(** ** [int_string] and the [strtol] it calls *)

Module IntString.

Import LibC.

(** The value of [c] as a digit of the given base, when it is one. *)
Definition digit_value (base : Z) (c : ascii) : option Z :=
  let v :=
    if isdigit c then code c - 48
    else if (97 <=? code c) && (code c <=? 122) then code c - 87
    else if (65 <=? code c) && (code c <=? 90) then code c - 55
    else 36 in
  if v <? base then Some v else None.

Definition has_digit (base : Z) (s : string) : bool :=
  match s with
  | String c _ =>
      match digit_value base c with Some _ => true | None => false end
  | EmptyString => false
  end.

(** The digits of the given base at the head of [s], accumulated onto
    [acc], and the text after them. *)
Fixpoint span_digits (base : Z) (s : string) (acc : Z) : Z * string :=
  match s with
  | EmptyString => (acc, s)
  | String c rest =>
      match digit_value base c with
      | Some v => span_digits base rest (acc * base + v)
      | None => (acc, s)
      end
  end.

(** Base 0: "0x" or "0X" before a hexadecimal digit selects base 16 and is
    passed over, another leading "0" selects base 8, anything else
    base 10.  The result is the base and the text where the digits
    start. *)
Definition detect_base (body : string) : Z * string :=
  match body with
  | String c0 (String x r1) =>
      if (code c0 =? 48) && ((code x =? 120) || (code x =? 88))
         && has_digit 16 r1
      then (16, r1)
      else if code c0 =? 48 then (8, body) else (10, body)
  | String c0 EmptyString => if code c0 =? 48 then (8, body) else (10, body)
  | EmptyString => (10, body)
  end.

(** [strtol(nptr, &endptr, 0)]: the value, and the text [endptr] points
    at.  With nothing to convert the value is 0 and [endptr] is [nptr]. *)
Definition strtol0 (nptr : string) : Z * string :=
  let '(neg, body) := take_sign (skip_space nptr) in
  let '(base, start) := detect_base body in
  if has_digit base start then
    let '(n, rest) := span_digits base start 0 in
    let v := if neg then - n else n in
    (Z.max Int.min_long (Z.min Int.max_long v), rest)
  else (0, nptr).

(** [*p == 0] for a pointer into a buffer. *)
Definition at_nul (p : string) : bool :=
  match p with
  | EmptyString => true
  | String c _ => code c =? 0
  end.

(** [int_string]: the [bool] it returns and the value it stores in
    [*val]. *)
Definition int_string (str : string) : bool * Z :=
  let '(v, endptr) := strtol0 str in
  let val := Int.wrap v in
  (negb (at_nul str) && at_nul endptr, val).

Fixpoint all_digits (s : string) : bool :=
  match s with
  | EmptyString => true
  | String c rest => isdigit c && all_digits rest
  end.

(** A decimal numeral: digits only, the first of them not 0. *)
Definition decimal_numeral (s : string) : bool :=
  match s with
  | String c rest => isdigit c && negb (code c =? 48) && all_digits rest
  | EmptyString => false
  end.

(** The C string in [s] ends with a line feed, as the text of a sysfs
    attribute does. *)
Definition ends_with_lf (s : string) : Prop :=
  exists body, c_str s = body ++ LF.

End IntString.

(** ** The path [open_power_file] opens *)

Module Path.

Import LibC.

Definition strlen (s : string) : nat := String.length (c_str s).

(** The C string [snprintf(buf, size, "%s/%s/%s", a, b, c)] leaves in
    [buf], for [size] at least 1: the first [size - 1] bytes of the
    formatted text. *)
Definition snprintf3 (size : nat) (a b c : string) : string :=
  substring 0 (size - 1) (c_str a ++ "/" ++ c_str b ++ "/" ++ c_str c).

Definition pathlen (base node key : string) : nat :=
  (strlen base + strlen node + strlen key + 3)%nat.

(** The path handed to [open]. *)
Definition power_file_path (base node key : string) : string :=
  snprintf3 (pathlen base node key) base node key.

(** [s] holds no slash, as a [d_name] does. *)
Fixpoint no_slash (s : string) : bool :=
  match s with
  | EmptyString => true
  | String c rest => negb (code c =? 47) && no_slash rest
  end.

Definition sys_class_power_supply_path : string :=
  "/sys/class/power_supply".

End Path.

(** ** Stores that differ past the text read *)

Module PaddedStores.

Import LibC PowerSupply Spec Stores.

Definition fs_plain : sysfs :=
  sysfs_of [("BAT0", battery [("status", line "Discharging");
                              ("capacity", line "50")])].

(** The same battery, its capacity file going on after a NUL byte and
    its status file going on for more than 63 bytes. *)
Definition fs_padded : sysfs :=
  sysfs_of
    [("BAT0",
      battery
        [("status",
          line "Discharging" ++ String (ascii_of_N 0)
            "0123456789012345678901234567890123456789012345678901234567890");
         ("capacity", line "50" ++ String (ascii_of_N 0) "99")])].

End PaddedStores.

(** ** Cells read through the -1 sentinel *)

Module Sentinel.

Import LibC PowerSupply Spec Stores.

(** A cell read as an optional value, -1 being the one value the source
    writes for a reading that is absent. *)
Definition reading (v : Z) : option Z := if v =? -1 then None else Some v.

(** A seconds cell as the loop writes it: absent or positive. *)
Definition seconds_in_contract (s : Z) : Prop := s = -1 \/ 0 < s.

(** A percent cell that is absent or not negative. *)
Definition percent_in_contract (p : Z) : Prop := p = -1 \/ 0 <= p.

(** Two batteries without seconds whose capacity files hold negative
    numbers, the larger one listed first. *)
Definition fs_two_negative : sysfs :=
  sysfs_of [("BAT0", battery [("status", line "Discharging");
                              ("capacity", line "-5")]);
            ("BAT1", battery [("status", line "Charging");
                              ("capacity", line "-7")])].

End Sentinel.

(** ** Facts about the C library model *)

Section LibCFacts.

Import LibC.

Lemma code_nonneg (c : ascii) : 0 <= code c.
Proof. unfold code. lia. Qed.

Lemma code_inj (c d : ascii) : code c = code d -> c = d.
Proof.
  unfold code. intros H.
  apply N2Z.inj in H.
  rewrite <- (ascii_N_embedding c), <- (ascii_N_embedding d).
  now f_equal.
Qed.

Lemma strcmp_zero_iff (a : string) :
  forall b, strcmp a b = 0 <-> c_str a = c_str b.
Proof.
  induction a as [| c a IH]; intros [| d b]; simpl.
  - tauto.
  - pose proof (code_nonneg d).
    destruct (Z.eqb_spec (code d) 0) as [E | E].
    + rewrite E. tauto.
    + split; [lia | discriminate].
  - destruct (Z.eqb_spec (code c) 0) as [E | E].
    + tauto.
    + split; [lia | discriminate].
  - destruct (Z.eqb_spec (code c) (code d)) as [E | E].
    + rewrite <- E. apply code_inj in E. subst d.
      destruct (Z.eqb_spec (code c) 0) as [E0 | E0]; [tauto |].
      rewrite IH. split; [intros ->; reflexivity | now intros [= ->]].
    + split; [lia |].
      destruct (Z.eqb_spec (code c) 0) as [Ec | Ec];
        destruct (Z.eqb_spec (code d) 0) as [Ed | Ed];
        try discriminate; [lia |].
      intros [= -> _]. contradiction.
Qed.

Lemma strcmp_eqb (a b : string) :
  (strcmp a b =? 0) = String.eqb (c_str a) (c_str b).
Proof.
  destruct (Z.eqb_spec (strcmp a b) 0) as [E | E];
    destruct (String.eqb_spec (c_str a) (c_str b)) as [F | F];
    try reflexivity.
  - apply strcmp_zero_iff in E. contradiction.
  - apply strcmp_zero_iff in F. contradiction.
Qed.

Lemma isspace_nonzero (c : ascii) : isspace c = true -> code c <> 0.
Proof. unfold isspace. lia. Qed.

Lemma isdigit_nonzero (c : ascii) : isdigit c = true -> code c <> 0.
Proof. unfold isdigit. lia. Qed.

Lemma skip_space_c_str (s : string) :
  skip_space (c_str s) = c_str (skip_space s).
Proof.
  induction s as [| c s IH]; simpl; [reflexivity |].
  destruct (Z.eqb_spec (code c) 0) as [E | E].
  - destruct (isspace c) eqn:Hsp.
    + apply isspace_nonzero in Hsp. contradiction.
    + simpl. destruct (Z.eqb_spec (code c) 0); [reflexivity | contradiction].
  - simpl. destruct (isspace c) eqn:Hsp; [exact IH |].
    simpl. destruct (Z.eqb_spec (code c) 0); [contradiction | reflexivity].
Qed.

Lemma digits_c_str (s : string) :
  forall acc, digits (c_str s) acc = digits s acc.
Proof.
  induction s as [| c s IH]; intros acc; simpl; [reflexivity |].
  destruct (Z.eqb_spec (code c) 0) as [E | E]; simpl.
  - destruct (isdigit c) eqn:Hd; [| reflexivity].
    apply isdigit_nonzero in Hd. contradiction.
  - now rewrite IH.
Qed.

Lemma take_sign_c_str (s : string) :
  take_sign (c_str s) =
  (fst (take_sign s), c_str (snd (take_sign s))).
Proof.
  destruct s as [| c s]; simpl; [reflexivity |].
  destruct (Z.eqb_spec (code c) 0) as [E | E]; simpl.
  - rewrite E. simpl. rewrite E. reflexivity.
  - destruct (Z.eqb_spec (code c) 45); [reflexivity |].
    destruct (Z.eqb_spec (code c) 43); [reflexivity |].
    simpl. destruct (Z.eqb_spec (code c) 0); [contradiction | reflexivity].
Qed.

Lemma strtol10_c_str (s : string) : strtol10 (c_str s) = strtol10 s.
Proof.
  unfold strtol10.
  rewrite skip_space_c_str, take_sign_c_str.
  destruct (take_sign (skip_space s)) as [neg body]. simpl.
  now rewrite digits_c_str.
Qed.

Lemma atoi_c_str (s : string) : atoi (c_str s) = atoi s.
Proof. unfold atoi. now rewrite strtol10_c_str. Qed.

Lemma no_conversion_c_str (s : string) :
  no_conversion (c_str s) = no_conversion s.
Proof.
  unfold no_conversion.
  rewrite skip_space_c_str, take_sign_c_str. simpl.
  destruct (snd (take_sign (skip_space s))) as [| c r]; simpl;
    [reflexivity |].
  destruct (Z.eqb_spec (code c) 0) as [E | E]; [| reflexivity].
  destruct (isdigit c) eqn:Hd; [| reflexivity].
  apply isdigit_nonzero in Hd. contradiction.
Qed.

(** Where [strtol] converts nothing, [atoi] returns 0. *)
Lemma atoi_no_conversion (s : string) :
  no_conversion s = true -> atoi s = 0.
Proof.
  unfold no_conversion, atoi, strtol10.
  destruct (take_sign (skip_space s)) as [neg body]. simpl.
  intros H.
  assert (D : digits body 0 = 0).
  { destruct body as [| c r]; simpl; [reflexivity |].
    destruct (isdigit c); [discriminate | reflexivity]. }
  rewrite D. destruct neg; reflexivity.
Qed.

Lemma wrap_id (z : Z) : Int.in_range z -> Int.wrap z = z.
Proof.
  unfold Int.in_range, Int.wrap, Int.min_int, Int.max_int. intros H.
  rewrite Z.mod_small; lia.
Qed.

End LibCFacts.

(** ** Facts about the selector *)

(** Turns every [strcmp] test in the goal into an equality test on C
    strings, the constant side written as a line. *)
Ltac strcmp_to_eqb :=
  rewrite ?strcmp_eqb;
  repeat match goal with
         | |- context [LibC.c_str (?w ++ LibC.LF)] =>
             change (LibC.c_str (w ++ LibC.LF)) with (Spec.line w)
         end.

Section SelectorFacts.

Import LibC PowerSupply Spec.


(** The [continue] tests, read on the attributes. *)
Lemma skipped_spec (fs : sysfs) (name : string) :
  skipped fs name =
  String.eqb (c_str name) "." || String.eqb (c_str name) ".."
  || negb (is_line "Battery" (attr fs name "type"))
  || is_line "device" (attr fs name "scope").
Proof.
  unfold skipped, attr, is_line. strcmp_to_eqb.
change (c_str ".") with "."%string. change (c_str "..") with ".."%string.
destruct (String.eqb (c_str name) "." || String.eqb (c_str name) "..");
  [reflexivity |].
destruct (read_power_file fs name "type" buflen) as [ty |];
  cbn [option_map orb negb]; [| reflexivity].
strcmp_to_eqb.
destruct (String.eqb (c_str ty) (line "Battery"));
  cbn [orb negb]; [| reflexivity].
destruct (read_power_file fs name "scope" buflen) as [sc |];
  cbn [option_map]; [| reflexivity].
now strcmp_to_eqb.
Qed.


Lemma filtered_out_skipped (fs : sysfs) (name : string) :
  filtered_out fs name -> skipped fs name = true.
Proof.
  rewrite skipped_spec. intros [H | [H | H]].
  - rewrite H. simpl. now rewrite orb_true_r.
  - destruct (attr fs name "type") as [ty |]; simpl.
    + destruct (String.eqb_spec ty (line "Battery")) as [-> | _];
        [contradiction | now rewrite orb_true_r].
    + now rewrite orb_true_r.
  - rewrite H. simpl. now rewrite orb_true_r.
Qed.

Lemma kept_not_skipped (fs : sysfs) (name : string) :
  ~ pseudo_entry name ->
  attr fs name "type" = Some (line "Battery") ->
  attr fs name "scope" <> Some (line "device") ->
  skipped fs name = false.
Proof.
  intros Hp Hty Hsc. rewrite skipped_spec, Hty.
  destruct (String.eqb_spec (c_str name) ".") as [E | _];
    [elim Hp; now left |].
  destruct (String.eqb_spec (c_str name) "..") as [E | _];
    [elim Hp; now right |].
  simpl.
  destruct (attr fs name "scope") as [sc |]; simpl; [| reflexivity].
  destruct (String.eqb_spec sc (line "device")) as [-> | _];
    [now elim Hsc | reflexivity].
Qed.

(** An entry whose [present] attribute reads "0" gets state
    [NoBattery]. *)
Lemma entry_state_not_present (fs : sysfs) (name : string) :
  attr fs name "present" = Some (line "0") ->
  entry_state fs name = POWERSTATE_NO_BATTERY.
Proof.
  unfold entry_state, attr.
  destruct (read_power_file fs name "present" buflen) as [pr |];
    cbn [option_map]; [| discriminate].
  intros [= H]. strcmp_to_eqb. now rewrite H, String.eqb_refl.
Qed.

Lemma skipped_loop_body (fs : sysfs) (best : power_info) (name : string) :
  skipped fs name = true -> loop_body fs best name = best.
Proof. unfold loop_body. now intros ->. Qed.

Lemma scan_app (fs : sysfs) (l1 l2 : list string) :
  scan fs (l1 ++ l2) = fold_left (loop_body fs) l2 (scan fs l1).
Proof. unfold scan. apply fold_left_app. Qed.


(** One turn of the loop reads the files of its own entry only. *)
Lemma loop_body_ext (fs fs' : sysfs) (best : power_info) (name : string) :
  (forall key, file_content fs' name key = file_content fs name key) ->
  loop_body fs' best name = loop_body fs best name.
Proof.
  intros H.
  unfold loop_body, skipped, entry_state, entry_pct, entry_secs,
    read_power_file.
  now rewrite !H.
Qed.

Lemma fold_ext (fs fs' : sysfs) (names : list string) :
  (forall n, In n names ->
             forall best, loop_body fs' best n = loop_body fs best n) ->
  forall best,
    fold_left (loop_body fs') names best =
    fold_left (loop_body fs) names best.
Proof.
  induction names as [| n names IH]; intros H best; simpl;
    [reflexivity |].
  rewrite H by now left.
  apply IH. intros m Hm. apply H. now right.
Qed.

Lemma entry_pct_le_100 (fs : sysfs) (name : string) :
  entry_pct fs name <= 100.
Proof.
  unfold entry_pct.
  destruct (read_power_file fs name "capacity" buflen) as [str |]; [| lia].
  destruct (Z.gtb_spec (atoi str) 100); lia.
Qed.

Lemma entry_secs_shape (fs : sysfs) (name : string) :
  entry_secs fs name = -1 \/ 0 < entry_secs fs name.
Proof.
  unfold entry_secs.
  destruct (read_power_file fs name "time_to_empty_now" buflen)
    as [str |]; [| now left].
  destruct (Z.leb_spec (atoi str) 0); [now left | now right].
Qed.

Lemma loop_body_well_shaped (fs : sysfs) (best : power_info) (n : string) :
  well_shaped best -> well_shaped (loop_body fs best n).
Proof.
  intros Hb. unfold loop_body.
  destruct (skipped fs n); [exact Hb |].
  destruct (choose _ _ best); [| exact Hb].
  split; simpl; [apply entry_pct_le_100 | apply entry_secs_shape].
Qed.

Lemma scan_well_shaped (fs : sysfs) (names : list string) :
  well_shaped (scan fs names).
Proof.
  unfold scan.
  assert (H0 : well_shaped no_battery) by (split; simpl; [lia | now left]).
  revert H0. generalize no_battery.
  induction names as [| n names IH]; intros best Hb; simpl; [exact Hb |].
  apply IH. now apply loop_body_well_shaped.
Qed.

(** The comparison, spelled out as one boolean formula. *)
Lemma choose_formula (secs pct : Z) (best : power_info) :
  choose secs pct best =
  if (secs <? 0) && (seconds best <? 0)
  then percent_rule pct (percent best)
  else seconds best <? secs.
Proof.
  unfold choose, percent_rule.
  rewrite !Z.gtb_ltb.
  destruct ((secs <? 0) && (seconds best <? 0)).
  - destruct ((pct <? 0) && (percent best <? 0)); simpl; [reflexivity |].
    now destruct (percent best <? pct).
  - now destruct (seconds best <? secs).
Qed.

End SelectorFacts.

(** ** The fuel estimator: range of the result *)

Section FuelFacts.

Import Fuel.

(** With no current, between 3.300 V and 3.756 V, the estimator is on its
    linear branch and no [int] operation overflows. *)
Lemma fuel_level_linear (mV : Z) :
  3300 <= mV <= 3756 ->
  fuel_level_LiIon mV 0 0 = Z.quot ((mV - 3300) * 896496) 100000.
Proof.
  intros H. unfold fuel_level_LiIon, Int.add, Int.sub, Int.mul, Int.div.
  change (0 * 0) with 0. change (Int.wrap 0) with 0.
  change (Z.quot 0 1000) with 0. change (Int.wrap 0) with 0.
  change (Int.wrap (3756 - 3300)) with 456.
  change (Int.wrap (456 * 1966)) with 896496.
  assert (R : forall z, -2147483648 <= z <= 2147483647 -> Int.wrap z = z)
    by (intros z Hz; apply wrap_id; exact Hz).
  rewrite Z.add_0_r.
  rewrite (R mV) by lia.
  rewrite (R (10 * mV)) by lia.
  rewrite (R (37835 - 10 * mV)) by lia.
  rewrite (R (14523 * (37835 - 10 * mV))) by lia.
  rewrite (R (3870000 - 14523 * (37835 - 10 * mV))) by lia.
  destruct (Z.ltb_spec (3870000 - 14523 * (37835 - 10 * mV)) 0) as [_ | U];
    [| lia].
  rewrite (R (mV - 3300)) by lia.
  rewrite (R ((mV - 3300) * 896496)) by lia.
  assert (Q : 0 <= Z.quot ((mV - 3300) * 896496) 100000 <= 4089).
  { rewrite Z.quot_div_nonneg by lia.
    split; [apply Z.div_pos; lia |].
    apply Z.div_le_upper_bound; lia. }
  rewrite (R _) by lia.
  unfold max. lia.
Qed.

(** From 3.312 V up to the end of the linear branch the result is
    above 100. *)
Lemma fuel_level_above_100 (mV : Z) :
  3312 <= mV <= 3756 -> 100 < fuel_level_LiIon mV 0 0.
Proof.
  intros H. rewrite fuel_level_linear by lia.
  rewrite Z.quot_div_nonneg by lia.
  apply Z.lt_le_trans with (m := 107); [lia |].
  apply Z.div_le_lower_bound; lia.
Qed.

(** C1, as the code has it.  The estimator gives 0 at 3300 mV with no
    load, as claimed; at 3756 mV with no load, the upper end of its
    linear branch, it gives 4088, which is not a percentage: the result
    is not in [0,100] for every input. *)
Theorem fuel_level_LiIon_exceeds_100 :
  fuel_level_LiIon 3300 0 0 = 0
  /\ fuel_level_LiIon 3756 0 0 = 4088
  /\ fuel_level_LiIon 3400 0 0 = 896.
Proof. repeat split; vm_compute; reflexivity. Qed.

End FuelFacts.

(** ** The selector: per-entry readings *)

Section EntryReadings.

Import LibC PowerSupply Spec Stores.

(** C6.  The state of an entry is [NoBattery] when its [present]
    attribute exists and reads "0"; otherwise it follows [status]:
    "Charging" gives [Charging], "Discharging" gives [OnBattery], "Full"
    and "Not charging" give [Charged], and a missing or any other status
    gives [Unknown]. *)
Theorem entry_state_follows_present_then_status :
  forall (fs : sysfs) (name : string),
    entry_state fs name =
    state_of (attr fs name "present") (attr fs name "status").
Proof.
  intros fs name. unfold entry_state, state_of, attr, is_line.
destruct (read_power_file fs name "present" buflen) as [pr |];
  destruct (read_power_file fs name "status" buflen) as [st |];
  cbn [option_map]; strcmp_to_eqb;
  repeat match goal with
         | |- context [String.eqb ?a ?b] => destruct (String.eqb a b)
         end;
  reflexivity.
Qed.

(** C4, as the code has it.  The percent of an entry is absent (-1) when
    its [capacity] attribute is missing.  When the attribute is there,
    the percent is the number [atoi] reads from it, capped at 100; text
    from which no integer can be read counts as 0, so the percent is
    then the number 0 and not absent. *)
Theorem entry_pct_of_capacity :
  forall (fs : sysfs) (name : string),
    entry_pct fs name =
    match attr fs name "capacity" with
    | None => -1
    | Some text =>
        if no_conversion text then 0 else Z.min (atoi text) 100
    end.
Proof.
  intros fs name. unfold entry_pct, attr.
  destruct (read_power_file fs name "capacity" buflen) as [buf |];
    cbn [option_map]; [| reflexivity].
  rewrite no_conversion_c_str, atoi_c_str.
  destruct (no_conversion buf) eqn:N.
  - now rewrite (atoi_no_conversion buf N).
  - destruct (Z.gtb_spec (atoi buf) 100); lia.
Qed.

(** C4 fails as stated: a [capacity] of "abc" cannot be parsed as an
    integer, and the entry's percent is 0, not the absent value -1. *)
Lemma unparsable_capacity_reads_zero :
  attr fs_garbled "BAT0" "capacity" = Some (line "abc")
  /\ no_conversion (line "abc") = true
  /\ entry_pct fs_garbled "BAT0" = 0
  /\ entry_pct fs_garbled "BAT0" <> -1
  /\ GetPowerInfo_Linux_sys_class_power_supply fs_garbled stale =
     (true, {| state := POWERSTATE_ON_BATTERY;
               seconds := -1; percent := 0 |}).
Proof. repeat split; try (vm_compute; reflexivity); discriminate. Qed.

(** C7.  When [time_to_empty_now] is missing, holds no integer, or holds
    one that is zero or negative, the seconds of the entry are absent
    (-1); such a candidate replaces the running best only when the
    running best has no seconds either, and then by the percent rule. *)
Theorem unusable_time_is_absent :
  forall (fs : sysfs) (name : string),
    (attr fs name "time_to_empty_now" = None
     \/ exists text, attr fs name "time_to_empty_now" = Some text
                     /\ (no_conversion text = true \/ atoi text <= 0)) ->
    entry_secs fs name = -1
    /\ known (entry_secs fs name) = None
    /\ forall (pct : Z) (best : power_info),
         choose (entry_secs fs name) pct best =
         (seconds best <? 0) && percent_rule pct (percent best).
Proof.
  intros fs name H.
  assert (E : entry_secs fs name = -1).
  { unfold entry_secs, attr in *.
    destruct (read_power_file fs name "time_to_empty_now" buflen)
      as [buf |]; [| reflexivity].
    destruct H as [H | [text [H Ht]]]; [discriminate |].
    cbn [option_map] in H. injection H as <-.
    rewrite no_conversion_c_str, atoi_c_str in Ht.
    assert (L : atoi buf <= 0).
    { destruct Ht as [N | L]; [rewrite (atoi_no_conversion buf N) |]; lia. }
    destruct (Z.leb_spec (atoi buf) 0); [reflexivity | lia]. }
  rewrite E. repeat split.
  intros pct best. rewrite choose_formula.
  change (-1 <? 0) with true. cbn [andb].
  destruct (Z.ltb_spec (seconds best) 0) as [_ | K]; [reflexivity |].
  cbn [andb]. apply Z.ltb_ge. lia.
Qed.

Lemma unusable_time_is_absent_witness :
  entry_secs fs_zero_time "BAT0" = -1
  /\ known (entry_secs fs_zero_time "BAT0") = None
  /\ forall (pct : Z) (best : power_info),
       choose (entry_secs fs_zero_time "BAT0") pct best =
       (seconds best <? 0) && percent_rule pct (percent best).
Proof.
  apply (unusable_time_is_absent fs_zero_time "BAT0").
  right. exists (line "0"). split; [reflexivity |].
  right. vm_compute. discriminate.
Defined.

(** The zero reading at work: with seconds absent on both sides the 70%
    entry is reported, whichever comes first in the listing. *)
Lemma zero_time_falls_back_to_percent :
  scan fs_zero_time ["BAT0"; "BAT1"] =
    {| state := POWERSTATE_ON_BATTERY; seconds := -1; percent := 70 |}
  /\ scan fs_zero_time_rev ["BAT1"; "BAT0"] =
    {| state := POWERSTATE_ON_BATTERY; seconds := -1; percent := 70 |}.
Proof. split; vm_compute; reflexivity. Qed.

End EntryReadings.

(** ** The selector: comparison, filters and the whole query *)

Section Selection.

Import LibC PowerSupply Spec Stores.

Local Abbreviation GetPowerInfo :=
  GetPowerInfo_Linux_sys_class_power_supply.

(** Where every cell is absent or in its range, the comparison is the
    precedence of the specification, read through the -1 sentinel: with
    seconds absent on both sides the candidate is preferred exactly when
    the running best has no percent or the candidate's percent is
    strictly greater; otherwise exactly when its seconds are strictly
    greater, absent seconds being below every known value. *)
Lemma choose_in_contract (secs pct : Z) (best : power_info) :
  Sentinel.seconds_in_contract secs ->
  Sentinel.percent_in_contract pct ->
  Sentinel.seconds_in_contract (seconds best) ->
  Sentinel.percent_in_contract (percent best) ->
  choose secs pct best =
  prefers (Sentinel.reading (seconds best)) (Sentinel.reading (percent best))
          (Sentinel.reading secs) (Sentinel.reading pct).
Proof.
  destruct best as [st bs bp].
  unfold Sentinel.seconds_in_contract, Sentinel.percent_in_contract.
  cbn [seconds percent]. intros Hs Hp Hbs Hbp.
  rewrite choose_formula.
  unfold prefers, seconds_lt, Sentinel.reading, percent_rule.
  cbn [seconds percent].
  repeat match goal with
         | |- context [?a <? ?b] => destruct (Z.ltb_spec a b)
         | |- context [?a =? ?b] => destruct (Z.eqb_spec a b)
         end;
    cbn [andb orb]; first [reflexivity | exfalso; lia].
Qed.

(** C2, as the code has it.  The entry with seconds 100 and percent 10 is
    reported rather than the one with no seconds and percent 90, in either
    listing order, as claimed.  The percent rule is not followed on
    negative readings: with seconds absent on both sides, a running best
    of percent -5 and a candidate of percent -7, the claimed precedence
    keeps the running best (its percent is not absent and -7 does not
    exceed -5) while the comparison takes the candidate, so the query on
    two batteries reporting -5 and then -7 returns the second with
    percent -7. *)
Theorem lower_negative_percent_is_preferred :
  choose (-1) (-7)
         {| state := POWERSTATE_ON_BATTERY; seconds := -1; percent := -5 |}
  = true
  /\ prefers (Sentinel.reading (-1)) (Sentinel.reading (-5))
             (Sentinel.reading (-1)) (Sentinel.reading (-7)) = false
  /\ scan Sentinel.fs_two_negative ["BAT0"]%string =
     {| state := POWERSTATE_ON_BATTERY; seconds := -1; percent := -5 |}
  /\ (forall out, GetPowerInfo Sentinel.fs_two_negative out =
        (true, {| state := POWERSTATE_CHARGING;
                  seconds := -1; percent := -7 |}))
  /\ (forall out, GetPowerInfo fs_AB out =
        (true, {| state := POWERSTATE_ON_BATTERY;
                  seconds := 100; percent := 10 |}))
  /\ (forall out, GetPowerInfo fs_BA out =
        (true, {| state := POWERSTATE_ON_BATTERY;
                  seconds := 100; percent := 10 |})).
Proof.
  repeat split; try intros out; vm_compute; reflexivity.
Qed.

(** C3, as the code has it.  A [capacity] above 100 is cut to 100, as
    claimed; a negative [capacity] is not raised to 0: the lone battery
    that reports -5 makes the query return percent -5, which is neither
    the absent value -1 nor a value of [0,100]. *)
Theorem negative_capacity_is_returned :
  GetPowerInfo fs_150 stale =
    (true, {| state := POWERSTATE_CHARGED; seconds := -1; percent := 100 |})
  /\ attr fs_negative "BAT0" "capacity" = Some (line "-5")
  /\ no_conversion (line "-5") = false
  /\ atoi (line "-5") = -5
  /\ GetPowerInfo fs_negative stale =
    (true, {| state := POWERSTATE_ON_BATTERY;
              seconds := -1; percent := -5 |}).
Proof. repeat split; vm_compute; reflexivity. Qed.

(** The part of C3 that holds on every store: the reported percent is
    never above 100, and the reported seconds are -1 or positive. *)
Lemma snapshot_well_shaped (fs : sysfs) (out snap : power_info) :
  GetPowerInfo fs out = (true, snap) -> well_shaped snap.
Proof.
  unfold GetPowerInfo_Linux_sys_class_power_supply.
  destruct (dir_entries fs) as [names |]; [| discriminate].
  intros [= <-]. apply scan_well_shaped.
Qed.

Lemma scan_relist (fs : sysfs) (listing names : list string) :
  scan (relist fs listing) names = scan fs names.
Proof.
  unfold scan. apply fold_ext. intros n _ best.
  now apply loop_body_ext.
Qed.

(** C5.  An entry whose [type] is missing or is not "Battery", or whose
    [scope] is "device", has no part in the result: the query returns
    what it returns on the listing without that entry, and it returns
    the same whatever the files of that entry hold, as long as the entry
    stays filtered. *)
Theorem filtered_entry_never_affects_snapshot :
  forall (fs : sysfs) (before : list string) (name : string)
         (after : list string) (out : power_info),
    dir_entries fs = Some (before ++ name :: after)%list ->
    filtered_out fs name ->
    GetPowerInfo fs out = GetPowerInfo (relist fs (before ++ after)%list) out
    /\ forall fs' : sysfs,
         dir_entries fs' = dir_entries fs ->
         (forall n key, n <> name ->
                        file_content fs' n key = file_content fs n key) ->
         filtered_out fs' name ->
         GetPowerInfo fs' out = GetPowerInfo fs out.
Proof.
  intros fs before name after out Hdir Hf.
  pose proof (filtered_out_skipped fs name Hf) as Hs.
  unfold GetPowerInfo_Linux_sys_class_power_supply.
  rewrite Hdir. cbn [relist dir_entries]. split.
  - f_equal. rewrite scan_relist, !scan_app. cbn [fold_left].
    now rewrite skipped_loop_body.
  - intros fs' Hdir' Hsame Hf'.
    rewrite Hdir'. f_equal. unfold scan.
    apply fold_ext. intros n _ best.
    destruct (string_dec n name) as [-> | Hn].
    + rewrite !skipped_loop_body;
        auto using filtered_out_skipped.
    + apply loop_body_ext. intros key. now apply Hsame.
Qed.

Lemma filtered_entry_never_affects_snapshot_witness :
  filtered_out fs_controller "hid"
  /\ GetPowerInfo fs_controller stale =
     GetPowerInfo (relist fs_controller ["BAT0"]) stale
  /\ GetPowerInfo fs_controller stale =
     (true, {| state := POWERSTATE_ON_BATTERY;
               seconds := -1; percent := 50 |}).
Proof.
  assert (H : filtered_out fs_controller "hid")
    by (right; right; reflexivity).
  split; [exact H |]. split; [| vm_compute; reflexivity].
  exact (proj1 (filtered_entry_never_affects_snapshot
                  fs_controller [] "hid" ["BAT0"] stale eq_refl H)).
Defined.

(** C8.  When the directory cannot be listed the query reports failure
    and the caller's three cells hold what they held before the call. *)
Theorem enumeration_failure_writes_nothing :
  forall (fs : sysfs) (out : power_info),
    dir_entries fs = None ->
    GetPowerInfo fs out = (false, out).
Proof.
  intros fs out H.
  unfold GetPowerInfo_Linux_sys_class_power_supply. now rewrite H.
Qed.

Lemma enumeration_failure_writes_nothing_witness :
  GetPowerInfo no_sysfs stale = (false, stale).
Proof.
  apply (enumeration_failure_writes_nothing no_sysfs stale).
  reflexivity.
Defined.



(** C10.  An entry that passes the filters and whose [present] attribute
    reads "0" is a candidate like any other: its state is [NoBattery]
    and its seconds and percent go through the comparison.  The query on
    the store with one such battery, capacity 50 and 3600 seconds left,
    succeeds with state [NoBattery], seconds 3600 and percent 50. *)
Theorem absent_battery_still_competes :
  (forall (fs : sysfs) (name : string) (best : power_info),
     ~ pseudo_entry name ->
     attr fs name "type" = Some (line "Battery") ->
     attr fs name "scope" <> Some (line "device") ->
     attr fs name "present" = Some (line "0") ->
     loop_body fs best name =
     if choose (entry_secs fs name) (entry_pct fs name) best
     then {| state := POWERSTATE_NO_BATTERY;
             seconds := entry_secs fs name;
             percent := entry_pct fs name |}
     else best)
  /\ exists (fs : sysfs) (snap : power_info),
       (forall out, GetPowerInfo fs out = (true, snap))
       /\ state snap = POWERSTATE_NO_BATTERY
       /\ 0 <= percent snap <= 100
       /\ 0 < seconds snap.
Proof.
  split.
  - intros fs name best Hp Hty Hsc Hpr. unfold loop_body.
    rewrite (kept_not_skipped fs name Hp Hty Hsc).
    now rewrite (entry_state_not_present fs name Hpr).
  - exists fs_removed.
    exists {| state := POWERSTATE_NO_BATTERY;
              seconds := 3600; percent := 50 |}.
    split; [intros out; vm_compute; reflexivity |].
    split; [reflexivity |].
    cbn [percent seconds]. lia.
Qed.

Lemma absent_battery_still_competes_witness :
  loop_body fs_removed no_battery "BAT0" =
  {| state := POWERSTATE_NO_BATTERY; seconds := 3600; percent := 50 |}.
Proof.
  refine (eq_trans
            (proj1 absent_battery_still_competes
                   fs_removed "BAT0" no_battery _ _ _ _) _).
  - intros [H | H]; vm_compute in H; discriminate.
  - reflexivity.
  - vm_compute. discriminate.
  - reflexivity.
  - vm_compute. reflexivity.
Defined.

End Selection.

(** ** The selection as a whole *)

Section WholeSelection.

Import LibC PowerSupply Spec Select Stores.

Local Abbreviation GetPowerInfo :=
  GetPowerInfo_Linux_sys_class_power_supply.

Lemma in_kept (fs : sysfs) (names : list string) (n : string) :
  In n (kept fs names) <-> In n names /\ skipped fs n = false.
Proof.
  unfold kept. rewrite filter_In.
  destruct (skipped fs n); simpl; intuition congruence.
Qed.

Lemma kept_app (fs : sysfs) (l1 l2 : list string) :
  kept fs (l1 ++ l2) = (kept fs l1 ++ kept fs l2)%list.
Proof. unfold kept. apply filter_app. Qed.

Lemma loop_body_kept (fs : sysfs) (best : power_info) (n : string) :
  skipped fs n = false ->
  loop_body fs best n =
  if choose (entry_secs fs n) (entry_pct fs n) best
  then candidate fs n else best.
Proof. unfold loop_body. now intros ->. Qed.

Lemma well_shaped_no_battery : well_shaped no_battery.
Proof. split; simpl; [lia | now left]. Qed.

Lemma fold_well_shaped (fs : sysfs) (names : list string) :
  forall best, well_shaped best ->
               well_shaped (fold_left (loop_body fs) names best).
Proof.
  induction names as [| n names IH]; intros best Hb; simpl; [exact Hb |].
  apply IH. now apply loop_body_well_shaped.
Qed.

(** A turn of the loop on a kept entry leaves in the seconds cell the
    larger of what it held and what the entry reports. *)
Lemma seconds_step (fs : sysfs) (best : power_info) (n : string) :
  well_shaped best -> skipped fs n = false ->
  seconds (loop_body fs best n) = Z.max (seconds best) (entry_secs fs n).
Proof.
  intros [_ Hs] Hk. rewrite (loop_body_kept fs best n Hk), choose_formula.
  pose proof (entry_secs_shape fs n) as He.
  destruct (Z.ltb_spec (entry_secs fs n) 0) as [A | A];
    destruct (Z.ltb_spec (seconds best) 0) as [B | B]; cbn [andb].
  - destruct (percent_rule _ _); cbn [candidate seconds]; lia.
  - destruct (Z.ltb_spec (seconds best) (entry_secs fs n));
      cbn [candidate seconds]; lia.
  - destruct (Z.ltb_spec (seconds best) (entry_secs fs n));
      cbn [candidate seconds]; lia.
  - destruct (Z.ltb_spec (seconds best) (entry_secs fs n));
      cbn [candidate seconds]; lia.
Qed.

Lemma most_seconds_cons (fs : sysfs) (n : string) (names : list string) :
  most_seconds fs (n :: names) =
  if skipped fs n then most_seconds fs names
  else Z.max (entry_secs fs n) (most_seconds fs names).
Proof.
  unfold most_seconds, kept. simpl. now destruct (skipped fs n).
Qed.

Lemma most_seconds_lower (fs : sysfs) (names : list string) :
  -1 <= most_seconds fs names.
Proof.
  induction names as [| n names IH]; [unfold most_seconds; simpl; lia |].
  rewrite most_seconds_cons. destruct (skipped fs n); lia.
Qed.

Lemma fold_seconds (fs : sysfs) (names : list string) :
  forall best, well_shaped best ->
    seconds (fold_left (loop_body fs) names best) =
    Z.max (seconds best) (most_seconds fs names).
Proof.
  induction names as [| n names IH]; intros best Hb.
  - simpl. destruct Hb as [_ Hs]. unfold most_seconds. simpl. lia.
  - cbn [fold_left].
    rewrite IH by now apply loop_body_well_shaped.
    rewrite most_seconds_cons.
    destruct (skipped fs n) eqn:Hk.
    + now rewrite skipped_loop_body.
    + rewrite seconds_step by assumption. lia.
Qed.

Lemma scan_seconds (fs : sysfs) (names : list string) :
  seconds (scan fs names) = most_seconds fs names.
Proof.
  unfold scan. rewrite fold_seconds by apply well_shaped_no_battery.
  pose proof (most_seconds_lower fs names). simpl. lia.
Qed.

Lemma most_seconds_upper (fs : sysfs) (names : list string) (n : string) :
  In n (kept fs names) -> entry_secs fs n <= most_seconds fs names.
Proof.
  unfold most_seconds.
  induction (kept fs names) as [| m l IH]; simpl; [tauto |].
  intros [-> | H]; [lia | specialize (IH H); lia].
Qed.

Lemma most_seconds_attained (fs : sysfs) (names : list string) :
  most_seconds fs names = -1
  \/ exists n, In n (kept fs names)
               /\ entry_secs fs n = most_seconds fs names.
Proof.
  unfold most_seconds.
  induction (kept fs names) as [| m l IH]; simpl; [now left |].
  destruct (Z.max_spec (entry_secs fs m)
                       (fold_right Z.max (-1) (map (entry_secs fs) l)))
    as [[_ E] | [_ E]]; rewrite E.
  - destruct IH as [IH | [n [Hn En]]]; [now left |].
    right. exists n. split; [now right | exact En].
  - right. exists m. split; [now left | reflexivity].
Qed.

Lemma most_seconds_perm (fs : sysfs) (l l' : list string) :
  Permutation l l' -> most_seconds fs l = most_seconds fs l'.
Proof.
  induction 1 as [| x l l' _ IH | x y l | l l' l'' _ IH1 _ IH2].
  - reflexivity.
  - rewrite !most_seconds_cons, IH. reflexivity.
  - rewrite !most_seconds_cons.
    destruct (skipped fs x), (skipped fs y); try reflexivity. lia.
  - congruence.
Qed.

Lemma query_scans (fs : sysfs) (names : list string) (out : power_info) :
  dir_entries fs = Some names ->
  GetPowerInfo fs out = (true, scan fs names).
Proof.
  intros H. unfold GetPowerInfo_Linux_sys_class_power_supply.
  now rewrite H.
Qed.

(** Whatever a kept entry reports, it replaces the cells as set before
    the loop. *)
Lemma choose_over_no_battery (fs : sysfs) (n : string) :
  choose (entry_secs fs n) (entry_pct fs n) no_battery = true.
Proof.
  rewrite choose_formula. unfold percent_rule. cbn [no_battery seconds percent].
  pose proof (entry_secs_shape fs n) as He.
  destruct (Z.ltb_spec (entry_secs fs n) 0) as [A | A]; cbn [andb].
  - change (-1 <? 0) with true. cbn [andb].
    destruct (Z.ltb_spec (entry_pct fs n) 0) as [P | P]; cbn [andb orb];
      [reflexivity |].
    apply Z.ltb_lt. lia.
  - apply Z.ltb_lt. lia.
Qed.

Lemma fold_candidate (fs : sysfs) (names : list string) :
  forall best,
    fold_left (loop_body fs) names best = best
    \/ exists n, In n (kept fs names)
                 /\ fold_left (loop_body fs) names best = candidate fs n.
Proof.
  induction names as [| n names IH]; intros best; [now left |].
  cbn [fold_left].
  destruct (skipped fs n) eqn:Hk.
  - rewrite skipped_loop_body by assumption.
    destruct (IH best) as [E | [m [Hm E]]]; [now left |].
    right. exists m. split; [| exact E].
    apply in_kept. apply in_kept in Hm. split; [now right | tauto].
  - assert (Hn : In n (kept fs (n :: names)))
      by (apply in_kept; split; [now left | assumption]).
    assert (Hrest : forall m, In m (kept fs names) ->
                              In m (kept fs (n :: names))).
    { intros m Hm. apply in_kept. apply in_kept in Hm.
      split; [now right | tauto]. }
    rewrite loop_body_kept by assumption.
    destruct (choose _ _ best).
    + destruct (IH (candidate fs n)) as [E | [m [Hm E]]].
      * right. exists n. split; [exact Hn | exact E].
      * right. exists m. split; [auto | exact E].
    + destruct (IH best) as [E | [m [Hm E]]]; [now left |].
      right. exists m. split; [auto | exact E].
Qed.

Lemma scan_candidate (fs : sysfs) (names : list string) :
  kept fs names <> [] ->
  exists n, In n (kept fs names) /\ scan fs names = candidate fs n.
Proof.
  unfold scan.
  induction names as [| n names IH]; intros Hne; [now elim Hne |].
  cbn [fold_left].
  destruct (skipped fs n) eqn:Hk.
  - rewrite skipped_loop_body by assumption.
    assert (K : kept fs (n :: names) = kept fs names)
      by (unfold kept; simpl; now rewrite Hk).
    rewrite K in *. now apply IH.
  - rewrite loop_body_kept, choose_over_no_battery by assumption.
    assert (K : kept fs (n :: names) = n :: kept fs names)
      by (unfold kept; simpl; now rewrite Hk).
    rewrite K.
    destruct (fold_candidate fs names (candidate fs n)) as [E | [m [Hm E]]].
    + exists n. split; [now left | exact E].
    + exists m. split; [now right | exact E].
Qed.

(** Once the cells hold known seconds, entries that report no more than
    that leave them alone. *)
Lemma fold_stays (fs : sysfs) (names : list string) :
  forall best,
    0 < seconds best ->
    (forall m, In m (kept fs names) -> entry_secs fs m <= seconds best) ->
    fold_left (loop_body fs) names best = best.
Proof.
  induction names as [| n names IH]; intros best Hpos Hle; [reflexivity |].
  cbn [fold_left].
  assert (Hrest : forall m, In m (kept fs names) ->
                            entry_secs fs m <= seconds best).
  { intros m Hm. apply Hle. apply in_kept. apply in_kept in Hm.
    split; [now right | tauto]. }
  destruct (skipped fs n) eqn:Hk.
  - rewrite skipped_loop_body by assumption. now apply IH.
  - rewrite loop_body_kept, choose_formula by assumption.
    assert (Hn : entry_secs fs n <= seconds best)
      by (apply Hle; apply in_kept; split; [now left | assumption]).
    destruct (Z.ltb_spec (seconds best) 0) as [B | B]; [lia |].
    rewrite andb_false_r.
    destruct (Z.ltb_spec (seconds best) (entry_secs fs n)); [lia |].
    now apply IH.
Qed.

Lemma most_seconds_below (fs : sysfs) (names : list string) (bound : Z) :
  -1 < bound ->
  (forall m, In m (kept fs names) -> entry_secs fs m < bound) ->
  most_seconds fs names < bound.
Proof.
  intros Hb Hall.
  destruct (most_seconds_attained fs names) as [E | [n [Hn E]]].
  - lia.
  - rewrite <- E. now apply Hall.
Qed.

(** With seconds absent in the cells and in every kept entry, a percent
    that the cells have reached is never lost. *)
Lemma fold_percent (fs : sysfs) (names : list string) (p : Z) :
  forall best,
    seconds best = -1 ->
    (forall m, In m (kept fs names) -> entry_secs fs m = -1) ->
    0 <= p <= percent best ->
    p <= percent (fold_left (loop_body fs) names best).
Proof.
  induction names as [| n names IH]; intros best Hs Hall Hp; [simpl; lia |].
  cbn [fold_left].
  assert (Hrest : forall m, In m (kept fs names) -> entry_secs fs m = -1).
  { intros m Hm. apply Hall. apply in_kept. apply in_kept in Hm.
    split; [now right | tauto]. }
  destruct (skipped fs n) eqn:Hk.
  - rewrite skipped_loop_body by assumption. now apply IH.
  - assert (Hn : entry_secs fs n = -1)
      by (apply Hall; apply in_kept; split; [now left | assumption]).
    rewrite loop_body_kept, choose_formula, Hn, Hs by assumption.
    change ((-1 <? 0) && (-1 <? 0)) with true. cbv iota.
    unfold percent_rule.
    destruct (Z.ltb_spec (percent best) 0) as [B | B]; [lia |].
    rewrite andb_false_r. cbn [orb].
    destruct (Z.ltb_spec (percent best) (entry_pct fs n)) as [L | L].
    + apply IH; [exact Hn | assumption | cbn [candidate percent]; lia].
    + now apply IH.
Qed.

Lemma entry_state_no_battery (fs : sysfs) (n : string) :
  entry_state fs n = POWERSTATE_NO_BATTERY ->
  attr fs n "present" = Some (line "0").
Proof.
  unfold entry_state, attr.
  assert (S : match read_power_file fs n "status" buflen with
              | None => POWERSTATE_UNKNOWN
              | Some str =>
                  if strcmp str ("Charging" ++ LF) =? 0
                  then POWERSTATE_CHARGING
                  else if strcmp str ("Discharging" ++ LF) =? 0
                  then POWERSTATE_ON_BATTERY
                  else if (strcmp str ("Full" ++ LF) =? 0)
                          || (strcmp str ("Not charging" ++ LF) =? 0)
                  then POWERSTATE_CHARGED
                  else POWERSTATE_UNKNOWN
              end <> POWERSTATE_NO_BATTERY).
  { destruct (read_power_file fs n "status" buflen) as [st |];
      [| discriminate].
    repeat match goal with
           | |- context [strcmp ?a ?b =? 0] => destruct (strcmp a b =? 0)
           end; cbn [orb]; discriminate. }
  destruct (read_power_file fs n "present" buflen) as [pr |];
    cbn [option_map]; [| intros H; now elim S].
  strcmp_to_eqb.
  destruct (String.eqb_spec (c_str pr) (line "0")) as [E | _];
    [intros _; now rewrite E | intros H; now elim S].
Qed.

(** X1.  On success the reported seconds are the largest seconds of the
    entries that get past the filters: no kept entry reports more, and
    the value is -1 or the seconds of one of them. *)
Theorem reported_seconds_are_the_most :
  forall (fs : sysfs) (names : list string) (out : power_info),
    dir_entries fs = Some names ->
    (forall n, In n (kept fs names) ->
               entry_secs fs n <= seconds (snd (GetPowerInfo fs out)))
    /\ (seconds (snd (GetPowerInfo fs out)) = -1
        \/ exists n, In n (kept fs names)
                     /\ entry_secs fs n =
                        seconds (snd (GetPowerInfo fs out))).
Proof.
  intros fs names out Hdir.
  rewrite (query_scans fs names out Hdir). cbn [snd].
  rewrite scan_seconds. split.
  - intros n Hn. now apply most_seconds_upper.
  - apply most_seconds_attained.
Qed.

Lemma reported_seconds_are_the_most_witness :
  (forall n, In n (kept fs_BA ["BAT0"; "BAT1"]%string) ->
             entry_secs fs_BA n <= seconds (snd (GetPowerInfo fs_BA stale)))
  /\ (seconds (snd (GetPowerInfo fs_BA stale)) = -1
      \/ exists n, In n (kept fs_BA ["BAT0"; "BAT1"]%string)
                   /\ entry_secs fs_BA n =
                      seconds (snd (GetPowerInfo fs_BA stale))).
Proof.
  apply (reported_seconds_are_the_most
           fs_BA ["BAT0"; "BAT1"]%string stale).
  reflexivity.
Defined.

(** X2.  The reported seconds do not depend on the order in which the
    directory lists its entries. *)
Theorem reported_seconds_ignore_listing_order :
  forall (fs : sysfs) (names names' : list string) (out : power_info),
    dir_entries fs = Some names ->
    Permutation names names' ->
    seconds (snd (GetPowerInfo (relist fs names') out)) =
    seconds (snd (GetPowerInfo fs out)).
Proof.
  intros fs names names' out Hdir Hperm.
  rewrite (query_scans fs names out Hdir).
  rewrite (query_scans (relist fs names') names' out eq_refl). cbn [snd].
  rewrite scan_relist, !scan_seconds.
  symmetry. now apply most_seconds_perm.
Qed.

Lemma reported_seconds_ignore_listing_order_witness :
  seconds (snd (GetPowerInfo (relist fs_AB ["BAT1"; "BAT0"]%string) stale)) =
  seconds (snd (GetPowerInfo fs_AB stale)).
Proof.
  apply (reported_seconds_ignore_listing_order
           fs_AB ["BAT0"; "BAT1"]%string ["BAT1"; "BAT0"]%string stale).
  - reflexivity.
  - apply perm_swap.
Defined.

(** X3.  When at least one entry gets past the filters, the snapshot is
    the state, seconds and percent of one single kept entry: the three
    cells are never a mix of two entries, nor the initial values. *)
Theorem snapshot_is_one_kept_entry :
  forall (fs : sysfs) (names : list string) (out : power_info),
    dir_entries fs = Some names ->
    kept fs names <> [] ->
    exists n, In n (kept fs names)
              /\ GetPowerInfo fs out = (true, candidate fs n).
Proof.
  intros fs names out Hdir Hne.
  rewrite (query_scans fs names out Hdir).
  destruct (scan_candidate fs names Hne) as [n [Hn E]].
  exists n. split; [exact Hn | now rewrite E].
Qed.

Lemma snapshot_is_one_kept_entry_witness :
  exists n, In n (kept fs_controller ["hid"; "BAT0"]%string)
            /\ GetPowerInfo fs_controller stale =
               (true, candidate fs_controller n).
Proof.
  apply (snapshot_is_one_kept_entry
           fs_controller ["hid"; "BAT0"]%string stale).
  - reflexivity.
  - vm_compute. discriminate.
Defined.

(** X4.  The first entry in listing order that reports the largest known
    seconds is the one returned: a kept entry with positive seconds,
    strictly more than every kept entry before it and at least as many as
    every kept entry after it, gives the whole snapshot. *)
Theorem first_entry_with_most_seconds_wins :
  forall (fs : sysfs) (before : list string) (n : string)
         (after : list string) (out : power_info),
    dir_entries fs = Some (before ++ n :: after)%list ->
    skipped fs n = false ->
    0 < entry_secs fs n ->
    (forall m, In m (kept fs before) -> entry_secs fs m < entry_secs fs n) ->
    (forall m, In m (kept fs after) -> entry_secs fs m <= entry_secs fs n) ->
    GetPowerInfo fs out = (true, candidate fs n).
Proof.
  intros fs before n after out Hdir Hk Hpos Hbefore Hafter.
  rewrite (query_scans fs _ out Hdir). f_equal.
  rewrite scan_app. cbn [fold_left].
  assert (B : seconds (scan fs before) < entry_secs fs n).
  { rewrite scan_seconds. apply most_seconds_below; [lia | assumption]. }
  rewrite loop_body_kept, choose_formula by assumption.
  destruct (Z.ltb_spec (entry_secs fs n) 0) as [A | _]; [lia |].
  cbn [andb].
  destruct (Z.ltb_spec (seconds (scan fs before)) (entry_secs fs n));
    [| lia].
  apply fold_stays; assumption.
Qed.

Lemma first_entry_with_most_seconds_wins_witness :
  GetPowerInfo fs_BA stale = (true, candidate fs_BA "BAT1").
Proof.
  apply (first_entry_with_most_seconds_wins
           fs_BA ["BAT0"]%string "BAT1" [] stale).
  - reflexivity.
  - reflexivity.
  - reflexivity.
  - intros m [<- | []]. reflexivity.
  - intros m [].
Defined.

(** X5.  When the reported seconds are absent, no kept entry reports a
    non-negative percent above the reported one. *)
Theorem percent_decides_without_seconds :
  forall (fs : sysfs) (names : list string) (out : power_info) (n : string),
    dir_entries fs = Some names ->
    seconds (snd (GetPowerInfo fs out)) = -1 ->
    In n (kept fs names) ->
    0 <= entry_pct fs n ->
    entry_pct fs n <= percent (snd (GetPowerInfo fs out)).
Proof.
  intros fs names out n Hdir.
  rewrite (query_scans fs names out Hdir). cbn [snd].
  rewrite scan_seconds. intros Hmost Hn Hp.
  assert (Hall : forall m, In m (kept fs names) -> entry_secs fs m = -1).
  { intros m Hm. pose proof (most_seconds_upper fs names m Hm).
    destruct (entry_secs_shape fs m); lia. }
  apply in_kept in Hn. destruct Hn as [Hin Hk].
  destruct (in_split n names Hin) as [l1 [l2 ->]].
  assert (H1 : forall m, In m (kept fs l1) -> entry_secs fs m = -1).
  { intros m Hm. apply Hall. rewrite kept_app. apply in_or_app. now left. }
  assert (H2 : forall m, In m (kept fs l2) -> entry_secs fs m = -1).
  { intros m Hm. apply Hall. rewrite kept_app. apply in_or_app. right.
    apply in_kept. apply in_kept in Hm. split; [now right | tauto]. }
  assert (S1 : seconds (scan fs l1) = -1).
  { rewrite scan_seconds.
    destruct (most_seconds_attained fs l1) as [E | [m [Hm E]]];
      [exact E | now rewrite <- E; apply H1]. }
  assert (Sn : entry_secs fs n = -1).
  { apply Hall. rewrite kept_app. apply in_or_app. right.
    apply in_kept. split; [now left | assumption]. }
  rewrite scan_app. cbn [fold_left].
  apply fold_percent; try assumption.
  - rewrite seconds_step by (try assumption; apply scan_well_shaped).
    rewrite S1, Sn. reflexivity.
  - split; [assumption |].
    rewrite loop_body_kept, choose_formula, Sn, S1 by assumption.
    change ((-1 <? 0) && (-1 <? 0)) with true. cbv iota.
    destruct (percent_rule _ _) eqn:R; cbn [candidate percent]; [lia |].
    unfold percent_rule in R. apply orb_false_elim in R.
    destruct R as [_ R]. apply Z.ltb_ge in R. exact R.
Qed.

Lemma percent_decides_without_seconds_witness :
  entry_pct fs_zero_time_rev "BAT1" <=
  percent (snd (GetPowerInfo fs_zero_time_rev stale)).
Proof.
  apply (percent_decides_without_seconds
           fs_zero_time_rev ["BAT1"; "BAT0"]%string stale "BAT1").
  - reflexivity.
  - reflexivity.
  - left. reflexivity.
  - vm_compute. discriminate.
Defined.

(** X6.  A successful snapshot has state [NoBattery] only when no entry
    got past the filters, or when the snapshot is that of a kept entry
    whose [present] attribute reads "0". *)
Theorem no_battery_state_has_a_reason :
  forall (fs : sysfs) (names : list string) (out : power_info),
    dir_entries fs = Some names ->
    state (snd (GetPowerInfo fs out)) = POWERSTATE_NO_BATTERY ->
    kept fs names = []
    \/ exists n, In n (kept fs names)
                 /\ attr fs n "present" = Some (line "0")
                 /\ GetPowerInfo fs out = (true, candidate fs n).
Proof.
  intros fs names out Hdir.
  rewrite (query_scans fs names out Hdir). cbn [snd]. intros Hst.
  destruct (kept fs names) as [| k ks] eqn:K; [now left |].
  right. rewrite <- K.
  destruct (scan_candidate fs names) as [n [Hn E]];
    [rewrite K; discriminate |].
  exists n. split; [exact Hn |]. split; [| now rewrite E].
  apply entry_state_no_battery. now rewrite E in Hst.
Qed.

Lemma no_battery_state_has_a_reason_witness :
  kept fs_removed ["BAT0"]%string = []
  \/ exists n, In n (kept fs_removed ["BAT0"]%string)
               /\ attr fs_removed n "present" = Some (line "0")
               /\ GetPowerInfo fs_removed stale =
                  (true, candidate fs_removed n).
Proof.
  apply (no_battery_state_has_a_reason fs_removed ["BAT0"]%string stale).
  - reflexivity.
  - reflexivity.
Defined.

Lemma wrap_in_range (z : Z) : Int.in_range (Int.wrap z).
Proof.
  unfold Int.in_range, Int.wrap, Int.min_int, Int.max_int.
  pose proof (Z.mod_pos_bound (z + 2 ^ 31) (2 ^ 32) ltac:(lia)). lia.
Qed.

Lemma candidate_in_range (fs : sysfs) (n : string) :
  Int.min_int <= percent (candidate fs n) <= 100
  /\ (seconds (candidate fs n) = -1
      \/ 0 < seconds (candidate fs n) <= Int.max_int).
Proof.
  cbn [candidate percent seconds]. unfold entry_pct, entry_secs. split.
  - destruct (read_power_file fs n "capacity" buflen) as [str |];
      [| unfold Int.min_int; lia].
    pose proof (wrap_in_range (strtol10 str)) as [L _]. fold (atoi str) in L.
    destruct (Z.gtb_spec (atoi str) 100); unfold Int.min_int in *; lia.
  - destruct (read_power_file fs n "time_to_empty_now" buflen) as [str |];
      [| now left].
    pose proof (wrap_in_range (strtol10 str)) as [_ U]. fold (atoi str) in U.
    destruct (Z.leb_spec (atoi str) 0); [now left | right; lia].
Qed.

(** X7.  What a successful query stores fits the cells: the percent is an
    [int] that is at most 100, and the seconds are -1 or a positive
    [int]; zero seconds and seconds below -1 are never reported. *)
Theorem snapshot_cells_in_range :
  forall (fs : sysfs) (out snap : power_info),
    GetPowerInfo fs out = (true, snap) ->
    Int.min_int <= percent snap <= 100
    /\ (seconds snap = -1 \/ 0 < seconds snap <= Int.max_int).
Proof.
  intros fs out snap.
  unfold GetPowerInfo_Linux_sys_class_power_supply.
  destruct (dir_entries fs) as [names |]; [| discriminate].
  intros [= <-]. unfold scan.
  destruct (fold_candidate fs names no_battery) as [E | [n [_ E]]];
    rewrite E.
  - cbn [no_battery percent seconds]. unfold Int.min_int.
    split; [lia | now left].
  - apply candidate_in_range.
Qed.

Lemma snapshot_cells_in_range_witness :
  Int.min_int <= percent (candidate fs_negative "BAT0") <= 100
  /\ (seconds (candidate fs_negative "BAT0") = -1
      \/ 0 < seconds (candidate fs_negative "BAT0") <= Int.max_int).
Proof.
  apply (snapshot_cells_in_range fs_negative stale).
  reflexivity.
Defined.

(** The readings of an entry are functions of the C strings read. *)
Lemma read_agree (fs fs' : sysfs) (n key : string) :
  attr fs' n key = attr fs n key ->
  (read_power_file fs' n key buflen = None
   /\ read_power_file fs n key buflen = None)
  \/ exists b b', read_power_file fs' n key buflen = Some b'
                  /\ read_power_file fs n key buflen = Some b
                  /\ c_str b' = c_str b.
Proof.
  unfold attr.
  destruct (read_power_file fs' n key buflen) as [b' |],
           (read_power_file fs n key buflen) as [b |];
    cbn [option_map]; try discriminate.
  - intros [= E]. right. now exists b, b'.
  - now left.
Qed.

Lemma loop_body_text (fs fs' : sysfs) (best : power_info) (n : string) :
  (forall key, attr fs' n key = attr fs n key) ->
  loop_body fs' best n = loop_body fs best n.
Proof.
  intros H. unfold loop_body.
  assert (Hsk : skipped fs' n = skipped fs n)
    by (now rewrite !skipped_spec, !H).
  assert (Hst : entry_state fs' n = entry_state fs n).
  { unfold entry_state.
    destruct (read_agree fs fs' n "present" (H _))
      as [[-> ->] | [b [b' [-> [-> Ep]]]]];
      destruct (read_agree fs fs' n "status" (H _))
        as [[-> ->] | [c [c' [-> [-> Es]]]]];
      rewrite ?strcmp_eqb, ?Ep, ?Es; reflexivity. }
  assert (Hp : entry_pct fs' n = entry_pct fs n).
  { unfold entry_pct.
    destruct (read_agree fs fs' n "capacity" (H _))
      as [[-> ->] | [b [b' [-> [-> E]]]]]; [reflexivity |].
    now rewrite <- (atoi_c_str b'), E, atoi_c_str. }
  assert (Hs : entry_secs fs' n = entry_secs fs n).
  { unfold entry_secs.
    destruct (read_agree fs fs' n "time_to_empty_now" (H _))
      as [[-> ->] | [b [b' [-> [-> E]]]]]; [reflexivity |].
    now rewrite <- (atoi_c_str b'), E, atoi_c_str. }
  now rewrite Hsk, Hst, Hp, Hs.
Qed.

(** X8.  The query depends on each file only through the C string held
    by the first 63 bytes of it: two stores with the same listing whose
    files agree that far give the same result, whatever follows a NUL
    byte or the 63rd byte. *)
Theorem only_the_text_read_matters :
  forall (fs fs' : sysfs) (out : power_info),
    dir_entries fs' = dir_entries fs ->
    (forall node key, attr fs' node key = attr fs node key) ->
    GetPowerInfo fs' out = GetPowerInfo fs out.
Proof.
  intros fs fs' out Hdir Hattr.
  unfold GetPowerInfo_Linux_sys_class_power_supply. rewrite Hdir.
  destruct (dir_entries fs) as [names |]; [| reflexivity].
  f_equal. unfold scan. apply fold_ext.
  intros n _ best. now apply loop_body_text.
Qed.

Lemma only_the_text_read_matters_witness :
  GetPowerInfo PaddedStores.fs_padded stale =
  GetPowerInfo PaddedStores.fs_plain stale.
Proof.
  apply (only_the_text_read_matters
           PaddedStores.fs_plain PaddedStores.fs_padded stale).
  - reflexivity.
  - intros node key.
    unfold attr, read_power_file, PaddedStores.fs_plain,
      PaddedStores.fs_padded, sysfs_of, battery.
    cbn [file_content assoc].
    destruct (String.eqb node "BAT0"); [| reflexivity].
    cbn [assoc].
    destruct (String.eqb key "type"); [reflexivity |].
    destruct (String.eqb key "status"); [reflexivity |].
    destruct (String.eqb key "capacity"); reflexivity.
Defined.

End WholeSelection.

(** ** The fuel estimator: sign, curve and compensation *)

Section FuelCurve.

Import Fuel FuelParts.

Lemma wrap_small (z : Z) :
  -2147483648 <= z <= 2147483647 -> Int.wrap z = z.
Proof. intros H. apply wrap_id. exact H. Qed.

Lemma wrap_bounds (z : Z) : -2147483648 <= Int.wrap z <= 2147483647.
Proof. exact (wrap_in_range z). Qed.

Lemma wrap_wrap (z : Z) : Int.wrap (Int.wrap z) = Int.wrap z.
Proof. apply wrap_small. apply wrap_bounds. Qed.

Lemma fuel_level_unfold (mV mA mOhm : Z) :
  fuel_level_LiIon mV mA mOhm =
  let v := corrected_mV mV mA mOhm in
  if curve_u v <? 0
  then max (Int.div (Int.mul (Int.sub v 3300) 896496) 100000) 0
  else min (Int.div (Int.wrap (1966 + int_sqrt (curve_u v))) 100) 100.
Proof. reflexivity. Qed.

Lemma sqrt_int_bound (u : Z) :
  0 <= u <= 2147483647 -> 0 <= Z.sqrt u <= 46340.
Proof.
  intros H. split; [apply Z.sqrt_nonneg |].
  change 46340 with (Z.sqrt 2147483647).
  apply Z.sqrt_le_mono. lia.
Qed.

(** The second part of the formula, on any [u] it can meet. *)
Lemma curve_value (u : Z) :
  0 <= u <= 2147483647 ->
  min (Int.div (Int.wrap (1966 + int_sqrt u)) 100) 100 =
  Z.min ((1966 + Z.sqrt u) / 100) 100.
Proof.
  intros H. pose proof (sqrt_int_bound u H) as S.
  unfold min, int_sqrt, Int.div.
  rewrite (wrap_small (1966 + Z.sqrt u)) by lia.
  rewrite Z.quot_div_nonneg by lia.
  assert (Q : 0 <= (1966 + Z.sqrt u) / 100 <= 484).
  { split; [apply Z.div_pos; lia |].
    apply Z.div_le_upper_bound; lia. }
  now rewrite wrap_small by lia.
Qed.

Lemma curve_value_range (u : Z) :
  0 <= u <= 2147483647 ->
  19 <= Z.min ((1966 + Z.sqrt u) / 100) 100 <= 100.
Proof.
  intros H. pose proof (sqrt_int_bound u H) as S.
  assert (Q : 19 <= (1966 + Z.sqrt u) / 100)
    by (apply Z.div_le_lower_bound; lia).
  lia.
Qed.

Lemma curve_u_bounds (v : Z) : -2147483648 <= curve_u v <= 2147483647.
Proof. unfold curve_u, Int.sub. apply wrap_bounds. Qed.

(** X9.  Whatever the three inputs, the estimate is never negative. *)
Theorem fuel_level_never_negative :
  forall mV mA mOhm : Z, 0 <= fuel_level_LiIon mV mA mOhm.
Proof.
  intros mV mA mOhm. rewrite fuel_level_unfold. cbv zeta.
  pose proof (curve_u_bounds (corrected_mV mV mA mOhm)) as B.
  destruct (Z.ltb_spec (curve_u (corrected_mV mV mA mOhm)) 0) as [U | U].
  - unfold max. lia.
  - rewrite curve_value by lia.
    pose proof (curve_value_range (curve_u (corrected_mV mV mA mOhm))).
    lia.
Qed.

(** X10.  Whenever the estimator takes the second part of its formula,
    that is when [u] is not negative, the estimate is between 19
    and 100. *)
Theorem fuel_level_on_curve_in_range :
  forall mV mA mOhm : Z,
    0 <= curve_u (corrected_mV mV mA mOhm) ->
    19 <= fuel_level_LiIon mV mA mOhm <= 100.
Proof.
  intros mV mA mOhm U. rewrite fuel_level_unfold. cbv zeta.
  pose proof (curve_u_bounds (corrected_mV mV mA mOhm)) as B.
  destruct (Z.ltb_spec (curve_u (corrected_mV mV mA mOhm)) 0) as [N | _];
    [lia |].
  rewrite curve_value by lia. apply curve_value_range. lia.
Qed.

Lemma fuel_level_on_curve_in_range_witness :
  19 <= fuel_level_LiIon 3900 500 120 <= 100.
Proof.
  apply (fuel_level_on_curve_in_range 3900 500 120).
  vm_compute. discriminate.
Defined.

(** X11.  The current and the resistance act only through the corrected
    voltage: the estimate for a loaded battery is the estimate for an
    unloaded one at the measured voltage plus [mOhm * mA / 1000]. *)
Theorem fuel_level_uses_corrected_voltage :
  forall mV mA mOhm : Z,
    fuel_level_LiIon mV mA mOhm =
    fuel_level_LiIon (corrected_mV mV mA mOhm) 0 0.
Proof.
  intros mV mA mOhm.
  rewrite (fuel_level_unfold (corrected_mV mV mA mOhm) 0 0),
    fuel_level_unfold. cbv zeta.
  assert (E : corrected_mV (corrected_mV mV mA mOhm) 0 0 =
              corrected_mV mV mA mOhm).
  { unfold corrected_mV at 1. unfold Int.add at 1.
    change (Int.div (Int.mul 0 0) 1000) with 0.
    rewrite Z.add_0_r. unfold corrected_mV, Int.add. apply wrap_wrap. }
  now rewrite E.
Qed.

Lemma corrected_no_load (mV : Z) :
  -2147483648 <= mV <= 2147483647 -> corrected_mV mV 0 0 = mV.
Proof.
  intros H. unfold corrected_mV, Int.add.
  change (Int.div (Int.mul 0 0) 1000) with 0.
  rewrite Z.add_0_r. now apply wrap_small.
Qed.

Lemma curve_u_exact (v : Z) :
  -11000 <= v <= 18543 -> curve_u v = 145230 * v - 545607705.
Proof.
  intros H. unfold curve_u, Int.sub, Int.mul.
  rewrite (wrap_small (10 * v)) by lia.
  rewrite (wrap_small (37835 - 10 * v)) by lia.
  rewrite (wrap_small (14523 * (37835 - 10 * v))) by lia.
  rewrite wrap_small by lia. lia.
Qed.

(** With no load, from 3757 mV up to the last voltage whose [u] fits an
    [int], the estimate is the second part of the formula in exact
    arithmetic. *)
Lemma fuel_level_curve (mV : Z) :
  3757 <= mV <= 18543 ->
  fuel_level_LiIon mV 0 0 =
  Z.min ((1966 + Z.sqrt (145230 * mV - 545607705)) / 100) 100.
Proof.
  intros H. rewrite fuel_level_unfold. cbv zeta.
  rewrite corrected_no_load by lia.
  rewrite curve_u_exact by lia.
  destruct (Z.ltb_spec (145230 * mV - 545607705) 0) as [N | _]; [lia |].
  apply curve_value. lia.
Qed.

(** X12.  With no load the estimate does not decrease as the voltage
    rises from 3757 mV to 18543 mV. *)
Theorem fuel_level_monotone_on_curve :
  forall a b : Z,
    3757 <= a -> a <= b -> b <= 18543 ->
    fuel_level_LiIon a 0 0 <= fuel_level_LiIon b 0 0.
Proof.
  intros a b Ha Hab Hb.
  rewrite !fuel_level_curve by lia.
  apply Z.min_le_compat_r.
  apply Z.div_le_mono; [lia |].
  apply Z.add_le_mono_l.
  apply Z.sqrt_le_mono. lia.
Qed.

Lemma fuel_level_monotone_on_curve_witness :
  fuel_level_LiIon 3800 0 0 <= fuel_level_LiIon 4100 0 0.
Proof.
  apply (fuel_level_monotone_on_curve 3800 4100); lia.
Defined.

(** X13.  With no load the estimate is 100 from 4202 mV on, up to
    18543 mV. *)
Theorem fuel_level_full_from_4202 :
  forall mV : Z,
    4202 <= mV <= 18543 -> fuel_level_LiIon mV 0 0 = 100.
Proof.
  intros mV H. rewrite fuel_level_curve by lia.
  assert (S : 8034 <= Z.sqrt (145230 * mV - 545607705)).
  { change 8034 with (Z.sqrt 64545156). apply Z.sqrt_le_mono. lia. }
  assert (Q : 100 <= (1966 + Z.sqrt (145230 * mV - 545607705)) / 100)
    by (apply Z.div_le_lower_bound; lia).
  lia.
Qed.

Lemma fuel_level_full_from_4202_witness : fuel_level_LiIon 4202 0 0 = 100.
Proof. apply (fuel_level_full_from_4202 4202). lia. Defined.

(** X14.  With no load the estimate is 0 from 905 mV up to 3300 mV. *)
Theorem fuel_level_empty_up_to_3300 :
  forall mV : Z,
    905 <= mV <= 3300 -> fuel_level_LiIon mV 0 0 = 0.
Proof.
  intros mV H. rewrite fuel_level_unfold. cbv zeta.
  rewrite corrected_no_load by lia.
  rewrite curve_u_exact by lia.
  destruct (Z.ltb_spec (145230 * mV - 545607705) 0) as [_ | N]; [| lia].
  unfold Int.sub, Int.mul, Int.div, max.
  rewrite (wrap_small (mV - 3300)) by lia.
  rewrite (wrap_small ((mV - 3300) * 896496)) by lia.
  assert (Q : -21474 <= Z.quot ((mV - 3300) * 896496) 100000 <= 0).
  { split.
    - change (-21474) with (Z.quot (-2147483648) 100000).
      apply Z.quot_le_mono; lia.
    - change (Z.quot ((mV - 3300) * 896496) 100000 <= Z.quot 0 100000).
      apply Z.quot_le_mono; lia. }
  rewrite wrap_small by lia. lia.
Qed.

Lemma fuel_level_empty_up_to_3300_witness : fuel_level_LiIon 3000 0 0 = 0.
Proof. apply (fuel_level_empty_up_to_3300 3000). lia. Defined.

End FuelCurve.

(** ** [int_string] *)

Section IntStringFacts.

Import LibC IntString.

Lemma c_str_empty_at_nul (s : string) : c_str s = "" -> at_nul s = true.
Proof.
  destruct s as [| c r]; simpl; [reflexivity |].
  destruct (Z.eqb_spec (code c) 0); [reflexivity | discriminate].
Qed.

Lemma ends_with_lf_at_nul (s : string) :
  ends_with_lf s -> at_nul s = false.
Proof.
  intros [b E]. destruct s as [| c r]; simpl in *.
  - destruct b; discriminate.
  - destruct (Z.eqb_spec (code c) 0); [| reflexivity].
    destruct b; discriminate.
Qed.

Lemma ends_with_lf_tail (c : ascii) (r : string) :
  ends_with_lf (String c r) -> ends_with_lf r \/ c_str r = "".
Proof.
  intros [b E]. simpl in E.
  destruct (Z.eqb_spec (code c) 0); [destruct b; discriminate |].
  destruct b as [| c' b']; simpl in E.
  - injection E as _ E. now right.
  - injection E as _ E. left. now exists b'.
Qed.

Lemma ends_with_lf_tail_strict (c : ascii) (r : string) :
  code c <> 10 -> ends_with_lf (String c r) -> ends_with_lf r.
Proof.
  intros Hc [b E]. simpl in E.
  destruct (Z.eqb_spec (code c) 0); [destruct b; discriminate |].
  destruct b as [| c' b']; simpl in E.
  - injection E as E _. subst c. now elim Hc.
  - injection E as _ E. now exists b'.
Qed.

Lemma skip_space_at_nul (s : string) :
  at_nul s = true -> skip_space s = s.
Proof.
  destruct s as [| c r]; simpl; [reflexivity |].
  intros H. apply Z.eqb_eq in H. unfold isspace. rewrite H. reflexivity.
Qed.

Lemma skip_space_ends (s : string) :
  ends_with_lf s ->
  ends_with_lf (skip_space s) \/ at_nul (skip_space s) = true.
Proof.
  induction s as [| c r IH]; intros H; [now right |].
  simpl. destruct (isspace c); [| now left].
  destruct (ends_with_lf_tail c r H) as [T | T]; [now apply IH |].
  right. apply c_str_empty_at_nul in T.
  now rewrite skip_space_at_nul.
Qed.

Lemma take_sign_ends (s : string) :
  ends_with_lf s -> ends_with_lf (snd (take_sign s)).
Proof.
  destruct s as [| c r]; intros H; [exact H |]. simpl.
  destruct (Z.eqb_spec (code c) 45) as [E | _];
    [apply (ends_with_lf_tail_strict c r); [lia | exact H] |].
  destruct (Z.eqb_spec (code c) 43) as [E | _];
    [apply (ends_with_lf_tail_strict c r); [lia | exact H] |].
  exact H.
Qed.

Lemma detect_base_ends (body : string) :
  ends_with_lf body -> ends_with_lf (snd (detect_base body)).
Proof.
  destruct body as [| c0 [| x r1]]; intros H; [exact H | |].
  - simpl. now destruct (code c0 =? 48).
  - unfold detect_base.
    destruct (Z.eqb_spec (code c0) 48) as [E0 | _]; cbn [andb];
      [| exact H].
    destruct ((code x =? 120) || (code x =? 88)) eqn:X; cbn [andb];
      [| exact H].
    destruct (has_digit 16 r1); [| exact H]. cbn [snd].
    apply (ends_with_lf_tail_strict x r1); [lia |].
    apply (ends_with_lf_tail_strict c0 (String x r1)); [lia | exact H].
Qed.

Lemma detect_base_small (body : string) : fst (detect_base body) <= 16.
Proof.
  destruct body as [| c0 [| x r1]]; unfold detect_base; cbn [fst]; try lia.
  - destruct (code c0 =? 48); cbn [fst]; lia.
  - destruct ((code c0 =? 48) && ((code x =? 120) || (code x =? 88))
              && has_digit 16 r1); cbn [fst]; [lia |].
    destruct (code c0 =? 48); cbn [fst]; lia.
Qed.

Lemma digit_value_not_lf (base : Z) (c : ascii) (v : Z) :
  base <= 16 -> digit_value base c = Some v -> code c <> 10.
Proof.
  intros Hb. unfold digit_value, isdigit. intros H E. rewrite E in H.
  cbn in H. destruct (Z.ltb_spec 36 base); [lia | discriminate].
Qed.

Lemma span_digits_ends (base : Z) (s : string) :
  base <= 16 -> ends_with_lf s ->
  forall acc, ends_with_lf (snd (span_digits base s acc)).
Proof.
  intros Hb. induction s as [| c r IH]; intros H acc; [exact H |].
  simpl. destruct (digit_value base c) as [v |] eqn:D; [| exact H].
  apply IH.
  apply (ends_with_lf_tail_strict c r);
    [now apply (digit_value_not_lf base c v) | exact H].
Qed.

Lemma has_digit_at_nul (base : Z) (s : string) :
  base <= 16 -> at_nul s = true -> has_digit base s = false.
Proof.
  intros Hb. destruct s as [| c r]; simpl; [reflexivity |].
  intros H. apply Z.eqb_eq in H.
  unfold digit_value, isdigit. rewrite H. cbn.
  destruct (Z.ltb_spec 36 base); [lia | reflexivity].
Qed.

Lemma take_sign_at_nul (s : string) :
  at_nul s = true -> take_sign s = (false, s).
Proof.
  destruct s as [| c r]; simpl; [reflexivity |].
  intros H. apply Z.eqb_eq in H. rewrite H. reflexivity.
Qed.

Lemma detect_base_at_nul (s : string) :
  at_nul s = true -> snd (detect_base s) = s.
Proof.
  destruct s as [| c [| x r]]; simpl; try reflexivity.
  - now destruct (code c =? 48).
  - intros H. apply Z.eqb_eq in H. rewrite H. reflexivity.
Qed.

(** X15.  [int_string] turns down every text that ends with a line
    feed, which is how sysfs presents its attributes: a trailing line
    feed is never part of the number, so [endptr] does not reach the
    end of the string. *)
Theorem int_string_rejects_lines :
  forall str : string,
    ends_with_lf str -> fst (int_string str) = false.
Proof.
  intros str H. unfold int_string, strtol0.
  pose proof (ends_with_lf_at_nul str H) as Hstr.
  destruct (take_sign (skip_space str)) as [neg body] eqn:T.
  destruct (detect_base body) as [base start] eqn:D.
  assert (Hb : base <= 16)
    by (pose proof (detect_base_small body) as B; now rewrite D in B).
  destruct (has_digit base start) eqn:HD.
  - destruct (span_digits base start 0) as [n rest] eqn:SP. cbn [fst].
    assert (R : ends_with_lf rest).
    { destruct (skip_space_ends str H) as [K | K].
      - pose proof (take_sign_ends _ K) as K1.
        rewrite T in K1. cbn [snd] in K1.
        pose proof (detect_base_ends _ K1) as K2.
        rewrite D in K2. cbn [snd] in K2.
        pose proof (span_digits_ends base start Hb K2 0) as K3.
        now rewrite SP in K3.
      - exfalso. rewrite (take_sign_at_nul _ K) in T.
        injection T as _ Tb. subst body.
        pose proof (detect_base_at_nul _ K) as K2. rewrite D in K2.
        cbn [snd] in K2. subst start.
        rewrite (has_digit_at_nul base _ Hb K) in HD. discriminate. }
    rewrite (ends_with_lf_at_nul rest R). apply andb_false_r.
  - cbn [fst]. rewrite Hstr. reflexivity.
Qed.

Lemma int_string_rejects_lines_witness :
  fst (int_string (Spec.line "80")) = false.
Proof.
  apply (int_string_rejects_lines (Spec.line "80")).
  exists "80". reflexivity.
Defined.

Lemma span_all_digits (s : string) :
  all_digits s = true ->
  forall acc, span_digits 10 s acc = (digits s acc, "").
Proof.
  induction s as [| c r IH]; intros H acc; [reflexivity |].
  simpl in *. apply andb_true_iff in H. destruct H as [Hc Hr].
  unfold digit_value. rewrite Hc.
  unfold isdigit in Hc.
  destruct (Z.ltb_spec (code c - 48) 10); [| lia].
  now apply IH.
Qed.

(** X16.  On a decimal numeral, a run of digits that does not start
    with 0, [int_string] succeeds and stores the number [atoi] reads. *)
Theorem int_string_agrees_with_atoi :
  forall str : string,
    decimal_numeral str = true -> int_string str = (true, atoi str).
Proof.
  intros [| c r] H; [discriminate |].
  cbn [decimal_numeral] in H.
  apply andb_true_iff in H. destruct H as [H Hr].
  apply andb_true_iff in H. destruct H as [Hc H0].
  apply negb_true_iff in H0. apply Z.eqb_neq in H0.
  assert (Hrange : 48 <= code c <= 57) by (unfold isdigit in Hc; lia).
  assert (Hsp : skip_space (String c r) = String c r).
  { simpl. unfold isspace.
    destruct (Z.eqb_spec (code c) 32); [lia |].
    destruct (Z.leb_spec (code c) 13); [lia |].
    now rewrite andb_false_r. }
  assert (Hsg : take_sign (String c r) = (false, String c r)).
  { simpl. destruct (Z.eqb_spec (code c) 45); [lia |].
    destruct (Z.eqb_spec (code c) 43); [lia | reflexivity]. }
  assert (Hdb : detect_base (String c r) = (10, String c r)).
  { unfold detect_base.
    destruct (Z.eqb_spec (code c) 48); [lia |]. now destruct r. }
  assert (Hhd : has_digit 10 (String c r) = true).
  { simpl. unfold digit_value. rewrite Hc.
    destruct (Z.ltb_spec (code c - 48) 10); [reflexivity | lia]. }
  assert (Hall : all_digits (String c r) = true)
    by (simpl; now rewrite Hc, Hr).
  unfold int_string, strtol0, atoi, strtol10.
  rewrite Hsp, Hsg, Hdb, Hhd, (span_all_digits _ Hall 0).
  f_equal. simpl.
  destruct (Z.eqb_spec (code c) 0); [lia | reflexivity].
Qed.

Lemma int_string_agrees_with_atoi_witness :
  int_string "3600" = (true, atoi "3600").
Proof.
  apply (int_string_agrees_with_atoi "3600"). reflexivity.
Defined.

End IntStringFacts.

(** ** [open_power_file] and [read_power_file] *)

Section FileAccess.

Import LibC PowerSupply Path Stores.

Lemma length_app (a b : string) :
  String.length (a ++ b) = (String.length a + String.length b)%nat.
Proof. induction a as [| c a IH]; simpl; [reflexivity | now rewrite IH]. Qed.

Lemma substring_whole (s : string) (n : nat) :
  (String.length s <= n)%nat -> substring 0 n s = s.
Proof.
  revert n. induction s as [| c s IH]; intros [| n] H; simpl in *;
    try reflexivity; [lia |].
  rewrite IH by lia. reflexivity.
Qed.

Lemma substring_length_le (s : string) (n : nat) :
  (String.length (substring 0 n s) <= n)%nat.
Proof.
  revert n. induction s as [| c s IH]; intros [| n]; simpl; try lia.
  specialize (IH n). lia.
Qed.

Lemma substring_prefix (s : string) (n : nat) :
  prefix (substring 0 n s) s = true.
Proof.
  revert n. induction s as [| c s IH]; intros [| n]; simpl;
    try reflexivity.
  destruct (ascii_dec c c) as [_ | N]; [apply IH | now elim N].
Qed.

Lemma app_cancel (a x y : string) : a ++ x = a ++ y -> x = y.
Proof.
  induction a as [| c a IH]; simpl; [tauto |].
  intros [= E]. now apply IH.
Qed.

Lemma split_at_slash (n n' k k' : string) :
  no_slash n = true -> no_slash n' = true ->
  n ++ "/" ++ k = n' ++ "/" ++ k' -> n = n' /\ k = k'.
Proof.
  revert n'. induction n as [| c n IH]; intros [| c' n'] H H' E;
    simpl in *.
  - injection E as E. now split.
  - injection E as Ec _. subst c'.
    apply andb_true_iff in H'. destruct H' as [H' _]. discriminate.
  - injection E as Ec _. subst c.
    apply andb_true_iff in H. destruct H as [H _]. discriminate.
  - injection E as Ec E. subst c'.
    apply andb_true_iff in H. apply andb_true_iff in H'.
    destruct (IH n') as [-> ->]; tauto.
Qed.

Lemma path_text_length (base node key : string) :
  String.length (c_str base ++ "/" ++ c_str node ++ "/" ++ c_str key) =
  (pathlen base node key - 1)%nat.
Proof. unfold pathlen, strlen. rewrite !length_app. simpl. lia. Qed.

Lemma power_file_path_whole (base node key : string) :
  power_file_path base node key =
  c_str base ++ "/" ++ c_str node ++ "/" ++ c_str key.
Proof.
  unfold power_file_path, snprintf3. apply substring_whole.
  rewrite path_text_length. lia.
Qed.

(** X17.  The buffer of [open_power_file] has exactly the size of the
    path and its terminator: the path handed to [open] is the whole of
    base, "/", node, "/" and key, never cut short. *)
Theorem power_file_path_is_never_cut :
  forall base node key : string,
    power_file_path base node key =
    c_str base ++ "/" ++ c_str node ++ "/" ++ c_str key
    /\ S (String.length (power_file_path base node key)) =
       pathlen base node key.
Proof.
  intros base node key. split; [apply power_file_path_whole |].
  rewrite power_file_path_whole, path_text_length. unfold pathlen. lia.
Qed.

(** X18.  Two entries never share a file: for names without a slash, as
    a directory yields them, equal paths under one base mean the same
    entry and the same attribute. *)
Theorem power_file_paths_are_distinct :
  forall base node key node' key' : string,
    no_slash (c_str node) = true ->
    no_slash (c_str node') = true ->
    power_file_path base node key = power_file_path base node' key' ->
    c_str node = c_str node' /\ c_str key = c_str key'.
Proof.
  intros base node key node' key' H H' E.
  rewrite !power_file_path_whole in E.
  apply app_cancel in E. injection E as E.
  now apply split_at_slash.
Qed.

Lemma power_file_paths_are_distinct_witness :
  c_str "BAT0" = c_str "BAT0" /\ c_str "capacity" = c_str "capacity".
Proof.
  apply (power_file_paths_are_distinct
           sys_class_power_supply_path "BAT0" "capacity" "BAT0" "capacity");
    reflexivity.
Defined.

(** X19.  For a buffer of at least one byte, what [read_power_file]
    returns leaves room for the terminator: it is shorter than the
    buffer, it is the beginning of the file, and it is the whole file
    when the file is shorter than the buffer. *)
Theorem read_power_file_fits_buffer :
  forall (fs : sysfs) (node key : string) (len : nat) (buf : string),
    (0 < len)%nat ->
    read_power_file fs node key len = Some buf ->
    (String.length buf < len)%nat
    /\ exists bytes,
         file_content fs node key = Some bytes
         /\ prefix buf bytes = true
         /\ ((String.length bytes < len)%nat -> buf = bytes).
Proof.
  intros fs node key len buf Hlen. unfold read_power_file.
  destruct (file_content fs node key) as [bytes |]; [| discriminate].
  intros [= <-]. split.
  - pose proof (substring_length_le bytes (len - 1)). lia.
  - exists bytes. split; [reflexivity |].
    split; [apply substring_prefix |].
    intros H. apply substring_whole. lia.
Qed.

Lemma read_power_file_fits_buffer_witness :
  (String.length (Spec.line "Battery") < buflen)%nat
  /\ exists bytes,
       file_content fs_150 "BAT0" "type" = Some bytes
       /\ prefix (Spec.line "Battery") bytes = true
       /\ ((String.length bytes < buflen)%nat ->
           Spec.line "Battery" = bytes).
Proof.
  apply (read_power_file_fits_buffer fs_150 "BAT0" "type" buflen).
  - unfold buflen. lia.
  - reflexivity.
Defined.

End FileAccess.
